(** * pyignite: request/response codec, cache identity and API wrappers

    A shallow embedding of [pyignite/api/key_value.py] and
    [pyignite/api/cache_config.py], together with the collaborators they
    import ([pyignite.queries], [pyignite.utils], [pyignite.api.result],
    [pyignite.datatypes]).

    Conventions.
    - A Python [str] is a Rocq [string] holding its UTF-8 encoding.
    - A Python [bytes] is a [list byte]; fixed-width integers are [Z] with
      the wrap-around written out, laid out little-endian.
    - A Python [dict] is an association list in insertion order.
    - Exceptions are the [Raise] branch of [Result]; the connection, the
      frames waiting on it and the random source are threaded as [World]. *)

From Stdlib Require Import ZArith List String Ascii Lia Bool Permutation.
From Stdlib Require Import DecimalNat DecimalString.
From coqutil Require Import Byte Word.LittleEndianList.
Import ListNotations.
Local Open Scope string_scope.
Local Open Scope list_scope.
Local Open Scope Z_scope.

(** ** Fixed-width integers on the wire *)

Module Wire.

(** Two's-complement reading of the low [8 * n] bits of [z]. *)
Definition signed (n : nat) (z : Z) : Z :=
  (z + 2 ^ (Z.of_nat n * 8 - 1)) mod 2 ^ (Z.of_nat n * 8)
  - 2 ^ (Z.of_nat n * 8 - 1).

Definition fits (n : nat) (z : Z) : bool :=
  (- 2 ^ (Z.of_nat n * 8 - 1) <=? z) && (z <? 2 ^ (Z.of_nat n * 8 - 1)).

(** [n] bytes, least significant first. *)
Definition put_int (n : nat) (z : Z) : list byte := le_split n z.

(** Reads [n] bytes as a signed integer; [None] on a short buffer. *)
Definition get_int (n : nat) (buf : list byte) : option (Z * list byte) :=
  if (n <=? List.length buf)%nat
  then Some (signed n (le_combine (firstn n buf)), skipn n buf)
  else None.

Definition put_str (s : string) : list byte :=
  put_int 4 (Z.of_nat (String.length s)) ++ list_byte_of_string s.

End Wire.

(** ** Python values *)

#[local] Set Warnings "-register-all".

Inductive PyValue : Type :=
| PNone
| PBool (b : bool)
| PInt (z : Z)
| PStr (s : string)
| PBytes (bs : list byte)
| PList (items : list PyValue)
| PTuple (items : list PyValue)
| PDict (items : list (PyValue * PyValue)).

(** [isinstance(v, (list, tuple))] *)
Definition is_list_or_tuple (v : PyValue) : bool :=
  match v with
  | PList _ | PTuple _ => true
  | _ => false
  end.

(** [v == 0]: integers compare by value and [False == 0] holds. *)
Definition py_eq_zero (v : PyValue) : bool :=
  match v with
  | PInt z => z =? 0
  | PBool b => negb b
  | _ => false
  end.

(** ** Exceptions *)

Inductive Error : Type :=
| EncodeError
| DecodeError
| UnknownPropertyError (code : Z)
| KeyError (key : string)
| TypeError
| ConnectionError.

Inductive Result (A : Type) : Type :=
| Ok (a : A)
| Raise (e : Error).
Arguments Ok {A} a.
Arguments Raise {A} e.

Definition rbind {A B} (r : Result A) (k : A -> Result B) : Result B :=
  match r with
  | Ok a => k a
  | Raise e => Raise e
  end.

Definition of_option {A} (e : Error) (o : option A) : Result A :=
  match o with
  | Some a => Ok a
  | None => Raise e
  end.

(** ** Dictionaries with string keys, in insertion order *)

Definition dict (V : Type) : Type := list (string * V).

Fixpoint dict_lookup {V} (d : dict V) (k : string) : option V :=
  match d with
  | [] => None
  | (k', v) :: d' => if String.eqb k' k then Some v else dict_lookup d' k
  end.

(** [d[k]] *)
Definition dict_get {V} (d : dict V) (k : string) : Result V :=
  of_option (KeyError k) (dict_lookup d k).

(** [d[k] = v]: an existing key keeps its position, a new key goes last. *)
Fixpoint dict_set {V} (d : dict V) (k : string) (v : V) : dict V :=
  match d with
  | [] => [(k, v)]
  | (k', v') :: d' =>
      if String.eqb k' k then (k', v) :: d' else (k', v') :: dict_set d' k v
  end.

(** [v[k]] on a Python value: only a dict can be subscripted by a name. *)
Definition py_getitem (v : PyValue) (k : string) : Result PyValue :=
  match v with
  | PDict items =>
      let fix find (l : list (PyValue * PyValue)) : Result PyValue :=
        match l with
        | [] => Raise (KeyError k)
        | (PStr k', x) :: l' => if String.eqb k' k then Ok x else find l'
        | _ :: l' => find l'
        end in
      find items
  | _ => Raise TypeError
  end.

(** ** Cache identity *)

Module utils.

(** Code points of a UTF-8 byte sequence (1 to 4 byte forms). *)
Fixpoint code_points (bs : list Z) : list Z :=
  match bs with
  | [] => []
  | b0 :: t0 =>
      if b0 <? 128 then b0 :: code_points t0
      else
        match t0 with
        | [] => []
        | b1 :: t1 =>
            if b0 <? 224 then
              Z.lor (Z.shiftl (Z.land b0 31) 6) (Z.land b1 63) :: code_points t1
            else
              match t1 with
              | [] => []
              | b2 :: t2 =>
                  if b0 <? 240 then
                    Z.lor (Z.shiftl (Z.land b0 15) 12)
                      (Z.lor (Z.shiftl (Z.land b1 63) 6) (Z.land b2 63))
                    :: code_points t2
                  else
                    match t2 with
                    | [] => []
                    | b3 :: t3 =>
                        Z.lor (Z.shiftl (Z.land b0 7) 18)
                          (Z.lor (Z.shiftl (Z.land b1 63) 12)
                             (Z.lor (Z.shiftl (Z.land b2 63) 6) (Z.land b3 63)))
                        :: code_points t3
                    end
              end
        end
  end.

(** UTF-16 code units of one code point: itself inside the basic plane,
    a surrogate pair above it. *)
Definition utf16_of_code_point (cp : Z) : list Z :=
  if cp <? 65536 then [cp]
  else [55296 + Z.shiftr (cp - 65536) 10; 56320 + Z.land (cp - 65536) 1023].

Definition utf16_units (s : string) : list Z :=
  flat_map utf16_of_code_point
    (code_points (map byte.unsigned (list_byte_of_string s))).

(** 32-bit signed wrap-around. *)
Definition int_overflow (value : Z) : Z :=
  (value + 2147483648) mod 4294967296 - 2147483648.

Definition hash_step (result char : Z) : Z := int_overflow (31 * result + char).

Definition hash_units (units : list Z) : Z := fold_left hash_step units 0.

(** Modelled from the spec: [pyignite.utils.hashcode] is not among the
    sources; the spec gives it as the polynomial hash
    [h = 31*h + code_point] over UTF-16 code units with 32-bit
    wrap-around, seeded with 0. *)
Definition hashcode (s : string) : Z := hash_units (utf16_units s).

(** A cache is referred to by name or by numeric identifier. *)
Inductive Cache : Type :=
| CacheName (name : string)
| CacheId (id : Z).

(** Modelled from the spec: [pyignite.utils.cache_id] is not among the
    sources; a caller that already holds a numeric identifier skips
    hashing. *)
Definition cache_id (cache : Cache) : Z :=
  match cache with
  | CacheId id => id
  | CacheName name => hashcode name
  end.

(** The polynomial over the exact integers, highest power first. *)
Fixpoint poly31 (acc : Z) (units : list Z) : Z :=
  match units with
  | [] => acc
  | u :: us => poly31 (31 * acc + u) us
  end.

End utils.

(** *** Text given by its code points

    A Python [str] is a sequence of Unicode code points; the Rocq string
    that stands for it holds its UTF-8 encoding. *)

(** The UTF-8 bytes of one code point. *)
Definition utf8_bytes (cp : Z) : list Z :=
  if cp <? 128 then [cp]
  else if cp <? 2048 then [192 + cp / 64; 128 + cp mod 64]
  else if cp <? 65536 then
    [224 + cp / 4096; 128 + (cp / 64) mod 64; 128 + cp mod 64]
  else
    [240 + cp / 262144; 128 + (cp / 4096) mod 64; 128 + (cp / 64) mod 64;
     128 + cp mod 64].

(** The string that holds the text with the given code points. *)
Definition utf8_text (code_points : list Z) : string :=
  string_of_list_byte (map byte.of_Z (flat_map utf8_bytes code_points)).

(** A code point of the Unicode range. *)
Definition is_code_point (cp : Z) : Prop := 0 <= cp < 1114112.

(** ** Data types and operation codes named by the API modules *)

Module datatypes.

(** The Ignite data types the API modules name; [Named] stands for any
    other type of the registry (a hint, a property type). *)
Inductive t : Type :=
| Int | Byte | Short | Long | Bool | String
| StringArray | Map | AnyDataObject | AnyDataArray
| PeekModes | cache_config_struct
| Named (name : string).

End datatypes.

Definition schema : Type := list (string * datatypes.t).

(** [hint or AnyDataObject] *)
Definition hint_or (hint : option datatypes.t) (default : datatypes.t) : datatypes.t :=
  match hint with
  | Some t => t
  | None => default
  end.

Inductive OpCode : Type :=
| OP_CACHE_GET_NAMES
| OP_CACHE_CREATE_WITH_NAME
| OP_CACHE_GET_OR_CREATE_WITH_NAME
| OP_CACHE_CREATE_WITH_CONFIGURATION
| OP_CACHE_GET_OR_CREATE_WITH_CONFIGURATION
| OP_CACHE_GET_CONFIGURATION
| OP_CACHE_DESTROY
| OP_CACHE_GET
| OP_CACHE_PUT
| OP_CACHE_PUT_IF_ABSENT
| OP_CACHE_GET_ALL
| OP_CACHE_PUT_ALL
| OP_CACHE_GET_AND_PUT
| OP_CACHE_GET_AND_REPLACE
| OP_CACHE_GET_AND_REMOVE
| OP_CACHE_GET_AND_PUT_IF_ABSENT
| OP_CACHE_REPLACE
| OP_CACHE_REPLACE_IF_EQUALS
| OP_CACHE_CONTAINS_KEY
| OP_CACHE_CONTAINS_KEYS
| OP_CACHE_CLEAR
| OP_CACHE_CLEAR_KEY
| OP_CACHE_CLEAR_KEYS
| OP_CACHE_REMOVE_KEY
| OP_CACHE_REMOVE_IF_EQUALS
| OP_CACHE_REMOVE_KEYS
| OP_CACHE_REMOVE_ALL
| OP_CACHE_GET_SIZE.

(** ** Messages and results *)

Module Query.
(** A query structure as the API functions build it: the operation code
    of the [Query] subclass, the request schema and the [query_id]
    argument ([None] when the caller gave none). *)
Record t : Type := make
  { op_code : OpCode; following : schema; query_id : option Z }.

Definition with_op_code (op : OpCode) (q : t) : t :=
  make op (following q) (query_id q).
End Query.

Module Header.
(** Modelled from the spec: the fixed part of a request frame; the query
    header class of [pyignite.queries] is not among the sources. *)
Record t : Type := make { length : Z; op_code : Z; query_id : Z }.
End Header.

Module Response.
(** Modelled from the spec: a decoded response frame; the response class
    of [pyignite.queries] is not among the sources.  [error_message] is
    present when the status is nonzero, [fields] are the decoded schema
    fields.  (The [Response([...])] structure of the API functions is its
    schema alone, a [schema] here.) *)
Record t : Type := make
  { length : Z;
    query_id : Z;
    status_code : Z;
    error_message : option string;
    fields : dict PyValue }.
End Response.

Module APIResult.
(** Modelled from the spec: status, error text or empty, decoded value or
    absent ([PNone]), and the query id of the response. *)
Record t : Type := make
  { status : Z; message : string; value : PyValue; query_id : Z }.

(** [result.value = v] *)
Definition set_value (r : t) (v : PyValue) : t :=
  make (status r) (message r) v (query_id r).
End APIResult.

(** A bound request field: name, wire type and the value it carries. *)
Definition Field : Type := (string * datatypes.t * PyValue)%type.

(** ** The connection and the random source *)

Record World : Type := mkWorld
  { sent : list (list byte);      (* frames written so far, oldest first *)
    inbox : list (list byte);     (* frames the peer will deliver, next first *)
    entropy : list Z }.           (* future draws of the random source *)

Definition Api (A : Type) : Type := World -> Result A * World.

Definition ret {A} (a : A) : Api A := fun w => (Ok a, w).

Definition bind {A B} (m : Api A) (k : A -> Api B) : Api B :=
  fun w =>
    match m w with
    | (Ok a, w') => k a w'
    | (Raise e, w') => (Raise e, w')
    end.

Definition lift {A} (r : Result A) : Api A := fun w => (r, w).

Declare Scope api_scope.
Delimit Scope api_scope with api.
Notation "x <- m ;; k" := (bind m (fun x => k))
  (at level 61, m at next level, right associativity) : api_scope.
Notation "m ;;; k" := (bind m (fun _ => k))
  (at level 61, right associativity) : api_scope.

Declare Scope result_scope.
Delimit Scope result_scope with result.
Notation "x <-- r ;; k" := (rbind r (fun x => k))
  (at level 61, r at next level, right associativity) : result_scope.

(** [conn.send(buffer)] *)
Definition send (buffer : list byte) : Api unit :=
  fun w => (Ok tt, mkWorld (sent w ++ [buffer]) (inbox w) (entropy w)).

(** [conn.receive()]: the next frame, or a connection error when the peer
    has nothing more to deliver. *)
Definition receive : Api (list byte) :=
  fun w =>
    match inbox w with
    | [] => (Raise ConnectionError, w)
    | frame :: rest => (Ok frame, mkWorld (sent w) rest (entropy w))
    end.

(** A 64-bit value that is never zero: [z] brought into the signed
    64-bit range, and 1 in place of 0. *)
Definition nonzero_long (z : Z) : Z :=
  if Wire.signed 8 z =? 0 then 1 else Wire.signed 8 z.

(** Modelled from the spec: the query id generated when the caller gives
    none; the generator of [Query.from_python] is not among the sources.
    The spec leaves the scheme open and asks for a value distinguishable
    from zero: the next draw of the random source made a nonzero 64-bit
    value, and 1 once the recorded draws are used up. *)
Definition randint_long : Api Z :=
  fun w =>
    match entropy w with
    | [] => (Ok 1, w)
    | z :: rest => (Ok (nonzero_long z), mkWorld (sent w) (inbox w) rest)
    end.

(** ['property_{}'.format(i)] *)
Definition property_name (i : nat) : string :=
  ("property_" ++ NilEmpty.string_of_uint (Nat.to_uint i))%string.

(** [cache_props.items()]: the entries of the property dictionary, code
    and value, in the order they were inserted (the iteration order of a
    Python dict). *)
Definition PropertyMap : Type := list (Z * PyValue).

Module Import PatternSyntax.
Notation "' pat <- m ;; k" :=
  (bind m (fun x => match x with pat => k end))
  (at level 61, pat pattern, m at next level, right associativity) : api_scope.
Notation "' pat <-- r ;; k" :=
  (rbind r (fun x => match x with pat => k end))
  (at level 61, pat pattern, r at next level, right associativity) : result_scope.
End PatternSyntax.

(** Modelled from the spec: [pyignite.api.result.APIResult] is not among
    the sources; the spec gives it as status, error text or empty, decoded
    value or absent, built once from a response frame. *)
Definition APIResult_of_response (response : Response.t) : APIResult.t :=
  APIResult.make
    (Response.status_code response)
    (match Response.error_message response with
     | Some text => text
     | None => ""
     end)
    PNone
    (Response.query_id response).

(** Modelled from the spec: the peer is an external collaborator; its
    reply to a request frame carries the request's query identifier
    unchanged (bytes 6 to 13 of the request), then the status and the
    payload, after a length that counts every byte after itself. *)
Definition server_reply (request : list byte) (status : Z) (payload : list byte)
  : list byte :=
  Wire.put_int 4 (12 + Z.of_nat (List.length payload))
  ++ firstn 8 (skipn 6 request)
  ++ Wire.put_int 4 status
  ++ payload.

(** The canonical success response: status 0 and an empty body. *)
Definition success_frame (query_id : Z) : list byte :=
  Wire.put_int 4 12 ++ Wire.put_int 8 query_id ++ Wire.put_int 4 0.

(** A success response that carries a body. *)
Definition data_frame (query_id : Z) (body : list byte) : list byte :=
  Wire.put_int 4 (12 + Z.of_nat (List.length body))
  ++ Wire.put_int 8 query_id ++ Wire.put_int 4 0 ++ body.

(** A failure response: nonzero status and a length-prefixed error text. *)
Definition error_frame (query_id status : Z) (text : string) : list byte :=
  Wire.put_int 4 (16 + Z.of_nat (String.length text))
  ++ Wire.put_int 8 query_id ++ Wire.put_int 4 status ++ Wire.put_str text.

(** One constructor per function of key_value.py, carrying the arguments
    that differ from one function to the next. *)
Inductive KVCall : Type :=
| Call_cache_put (key value : PyValue) (key_hint value_hint : option datatypes.t)
| Call_cache_get (key : PyValue) (key_hint : option datatypes.t)
| Call_cache_get_all (keys : PyValue)
| Call_cache_put_all (pairs : PyValue)
| Call_cache_contains_key (key : PyValue) (key_hint : option datatypes.t)
| Call_cache_contains_keys (keys : PyValue)
| Call_cache_get_and_put (key value : PyValue) (key_hint value_hint : option datatypes.t)
| Call_cache_get_and_replace (key value : PyValue) (key_hint value_hint : option datatypes.t)
| Call_cache_get_and_remove (key : PyValue) (key_hint : option datatypes.t)
| Call_cache_put_if_absent (key value : PyValue) (key_hint value_hint : option datatypes.t)
| Call_cache_get_and_put_if_absent (key value : PyValue) (key_hint value_hint : option datatypes.t)
| Call_cache_replace (key value : PyValue) (key_hint value_hint : option datatypes.t)
| Call_cache_replace_if_equals (key sample value : PyValue) (key_hint sample_hint value_hint : option datatypes.t)
| Call_cache_clear
| Call_cache_clear_key (key : PyValue) (key_hint : option datatypes.t)
| Call_cache_clear_keys (keys : PyValue)
| Call_cache_remove_key (key : PyValue) (key_hint : option datatypes.t)
| Call_cache_remove_if_equals (key sample : PyValue) (key_hint sample_hint : option datatypes.t)
| Call_cache_remove_keys (keys : PyValue)
| Call_cache_remove_all
| Call_cache_get_size (peek_modes : PyValue).

(** One constructor per function of cache_config.py. *)
Inductive ConfigCall : Type :=
| Call_cache_get_configuration (cache : utils.Cache) (flags : Z) (query_id : option Z)
| Call_cache_create (name : string) (query_id : option Z)
| Call_cache_get_or_create (name : string) (query_id : option Z)
| Call_cache_destroy (cache : utils.Cache) (query_id : option Z)
| Call_cache_get_names (query_id : option Z)
| Call_cache_create_with_config (cache_props : PropertyMap) (query_id : option Z)
| Call_cache_get_or_create_with_config (cache_props : PropertyMap) (query_id : option Z).

(** A call of either module. *)
Inductive Call : Type :=
| KV (op : KVCall) (cache : utils.Cache) (binary : bool) (query_id : option Z)
| Config (call : ConfigCall).

(** ** A sample registry

    One concrete choice of the protocol tables, used to run the
    definitions on concrete inputs. *)

Module Sample.

Definition op_number (op : OpCode) : Z :=
  match op with
  | OP_CACHE_GET => 1000
  | OP_CACHE_PUT => 1001
  | OP_CACHE_PUT_IF_ABSENT => 1002
  | OP_CACHE_GET_ALL => 1003
  | OP_CACHE_PUT_ALL => 1004
  | OP_CACHE_GET_AND_PUT => 1005
  | OP_CACHE_GET_AND_REPLACE => 1006
  | OP_CACHE_GET_AND_REMOVE => 1007
  | OP_CACHE_GET_AND_PUT_IF_ABSENT => 1008
  | OP_CACHE_REPLACE => 1009
  | OP_CACHE_REPLACE_IF_EQUALS => 1010
  | OP_CACHE_CONTAINS_KEY => 1011
  | OP_CACHE_CONTAINS_KEYS => 1012
  | OP_CACHE_CLEAR => 1013
  | OP_CACHE_CLEAR_KEY => 1014
  | OP_CACHE_CLEAR_KEYS => 1015
  | OP_CACHE_REMOVE_KEY => 1016
  | OP_CACHE_REMOVE_IF_EQUALS => 1017
  | OP_CACHE_REMOVE_KEYS => 1018
  | OP_CACHE_REMOVE_ALL => 1019
  | OP_CACHE_GET_SIZE => 1020
  | OP_CACHE_GET_NAMES => 1050
  | OP_CACHE_CREATE_WITH_NAME => 1051
  | OP_CACHE_GET_OR_CREATE_WITH_NAME => 1052
  | OP_CACHE_CREATE_WITH_CONFIGURATION => 1053
  | OP_CACHE_GET_OR_CREATE_WITH_CONFIGURATION => 1054
  | OP_CACHE_GET_CONFIGURATION => 1055
  | OP_CACHE_DESTROY => 1056
  end.

(** Three property codes: a name, a numeric mode and a text. *)
Definition prop_table (code : Z) : option datatypes.t :=
  if code =? 0 then Some datatypes.String
  else if code =? 1 then Some datatypes.Int
  else if code =? 2 then Some datatypes.String
  else None.

Definition put_fixed (n : nat) (v : PyValue) : option (list byte) :=
  match v with
  | PInt z => if Wire.fits n z then Some (Wire.put_int n z) else None
  | _ => None
  end.

(** Self-describing values: a type code, then the payload. *)
Definition put_any (v : PyValue) : option (list byte) :=
  match v with
  | PNone => Some [byte.of_Z 101]
  | PBool b => Some [byte.of_Z 8; byte.of_Z (if b then 1 else 0)]
  | PInt z =>
      if Wire.fits 4 z then Some (byte.of_Z 3 :: Wire.put_int 4 z)
      else if Wire.fits 8 z then Some (byte.of_Z 4 :: Wire.put_int 8 z)
      else None
  | PStr s => Some (byte.of_Z 9 :: Wire.put_str s)
  | _ => None
  end.

Definition encode_value (t : datatypes.t) (v : PyValue) : option (list byte) :=
  match t with
  | datatypes.Byte => put_fixed 1 v
  | datatypes.Short => put_fixed 2 v
  | datatypes.Int => put_fixed 4 v
  | datatypes.Long => put_fixed 8 v
  | datatypes.Bool =>
      match v with
      | PBool b => Some [byte.of_Z (if b then 1 else 0)]
      | _ => None
      end
  | datatypes.String | datatypes.AnyDataObject => put_any v
  | _ => None
  end.

Definition get_fixed (n : nat) (buf : list byte) : option (PyValue * list byte) :=
  match Wire.get_int n buf with
  | Some (z, rest) => Some (PInt z, rest)
  | None => None
  end.

Definition get_any (buf : list byte) : option (PyValue * list byte) :=
  match buf with
  | [] => None
  | code :: rest =>
      let c := byte.unsigned code in
      if c =? 101 then Some (PNone, rest)
      else if c =? 3 then get_fixed 4 rest
      else if c =? 4 then get_fixed 8 rest
      else if c =? 8 then
        match rest with
        | b :: rest' => Some (PBool (negb (byte.unsigned b =? 0)), rest')
        | [] => None
        end
      else if c =? 9 then
        match Wire.get_int 4 rest with
        | Some (n, rest') =>
            if (0 <=? n) && (n <=? Z.of_nat (List.length rest')) then
              Some (PStr (string_of_list_byte (firstn (Z.to_nat n) rest')),
                    skipn (Z.to_nat n) rest')
            else None
        | None => None
        end
      else None
  end.

Definition parse_value (t : datatypes.t) (buf : list byte)
  : option (PyValue * list byte) :=
  match t with
  | datatypes.Byte => get_fixed 1 buf
  | datatypes.Short => get_fixed 2 buf
  | datatypes.Int => get_fixed 4 buf
  | datatypes.Long => get_fixed 8 buf
  | datatypes.Bool =>
      match buf with
      | b :: rest => Some (PBool (negb (byte.unsigned b =? 0)), rest)
      | [] => None
      end
  | datatypes.String | datatypes.AnyDataObject => get_any buf
  | _ => None
  end.

(** A world in which the peer will deliver the given frames. *)
Definition world (frames : list (list byte)) : World := mkWorld [] frames [].

End Sample.

Section Codec.

(** The cluster-protocol constant tables, which the sources import but
    do not define: the numeric operation codes, the property-code to
    type table and the per-type value codecs of the registry. *)
Variable op_number : OpCode -> Z.
Variable prop_table : Z -> option datatypes.t.
Variable encode_value : datatypes.t -> PyValue -> option (list byte).
Variable parse_value : datatypes.t -> list byte -> option (PyValue * list byte).

Local Open Scope result_scope.

(** The fields of a request: each schema entry with [values[name]]. *)
Fixpoint bound_fields (following : schema) (values : dict PyValue)
  : Result (list Field) :=
  match following with
  | [] => Ok []
  | (name, c_type) :: rest =>
      v <-- dict_get values name ;;
      fs <-- bound_fields rest values ;;
      Ok ((name, c_type, v) :: fs)
  end.

(** [for name, c_type in following: buffer += c_type.from_python(values[name])] *)
Fixpoint encode_body (following : schema) (values : dict PyValue)
  : Result (list byte) :=
  match following with
  | [] => Ok []
  | (name, c_type) :: rest =>
      v <-- dict_get values name ;;
      b <-- of_option EncodeError (encode_value c_type v) ;;
      bs <-- encode_body rest values ;;
      Ok (b ++ bs)
  end.

(** Modelled from the spec: the message codec of [pyignite.queries] is
    not among the sources; the request frame is
    [[i32 length][i16 op_code][i64 query_id][body]], little-endian, the
    length computed last and counting every byte after itself; a value
    that overflows its field is an EncodeError. *)
Definition encode_request (op : OpCode) (query_id : Z) (following : schema)
    (values : dict PyValue) : Result (Header.t * list byte) :=
  body <-- encode_body following values ;;
  let length := Z.of_nat (List.length body) + 10 in
  if Wire.fits 2 (op_number op) && Wire.fits 8 query_id && Wire.fits 4 length
  then Ok (Header.make length (op_number op) query_id,
           Wire.put_int 4 length ++ Wire.put_int 2 (op_number op)
           ++ Wire.put_int 8 query_id ++ body)
  else Raise EncodeError.

Fixpoint decode_fields (following : schema) (buf : list byte)
  : Result (dict PyValue * list byte) :=
  match following with
  | [] => Ok ([], buf)
  | (name, c_type) :: rest =>
      '(v, buf') <-- of_option DecodeError (parse_value c_type buf) ;;
      '(fs, buf'') <-- decode_fields rest buf' ;;
      Ok ((name, v) :: fs, buf'')
  end.

(** Modelled from the spec: the fixed part of a response frame,
    [[i32 length][i64 query_id][i32 status]], and the bytes after it. *)
Definition decode_header (buf : list byte) : Result (Z * Z * Z * list byte) :=
  '(length, buf1) <-- of_option DecodeError (Wire.get_int 4 buf) ;;
  '(query_id, buf2) <-- of_option DecodeError (Wire.get_int 8 buf1) ;;
  '(status, buf3) <-- of_option DecodeError (Wire.get_int 4 buf2) ;;
  Ok (length, query_id, status, buf3).

(** Modelled from the spec: after the header a response frame holds,
    when the status is 0, the schema fields in declared order with no
    byte left over, and otherwise a length-prefixed UTF-8 error text,
    after which decoding stops. *)
Definition decode_response (following : schema) (buf : list byte)
  : Result Response.t :=
  '(length, query_id, status, buf3) <-- decode_header buf ;;
  if status =? 0 then
    '(fs, rest) <-- decode_fields following buf3 ;;
    match rest with
    | [] => Ok (Response.make length query_id status None fs)
    | _ :: _ => Raise DecodeError
    end
  else
    '(n, buf4) <-- of_option DecodeError (Wire.get_int 4 buf3) ;;
    if (0 <=? n) && (n <=? Z.of_nat (List.length buf4)) then
      Ok (Response.make length query_id status
            (Some (string_of_list_byte (firstn (Z.to_nat n) buf4))) [])
    else Raise DecodeError.

Local Close Scope result_scope.
Local Open Scope api_scope.

(** Modelled from the spec: [Query.from_python] is not among the
    sources; it encodes the request frame, drawing a random query id
    when the caller gave none. *)
Definition from_python (query_struct : Query.t) (values : dict PyValue)
  : Api (Header.t * list byte) :=
  query_id <- match Query.query_id query_struct with
              | Some q => ret q
              | None => randint_long
              end ;;
  lift (encode_request (Query.op_code query_struct) query_id
          (Query.following query_struct) values).

(** Modelled from the spec: [Response.parse] followed by
    [from_buffer_copy] is not among the sources; it takes the next frame
    from the connection and decodes it against the response schema. *)
Definition parse (response_struct : schema) : Api Response.t :=
  frame <- receive ;;
  lift (decode_response response_struct frame).

(** Modelled from the spec: [Response.to_python] is not among the
    sources; the decoded fields by name, in schema order, and no value
    at all when the schema declares no field. *)
Definition to_python (response_struct : schema) (response : Response.t)
  : Result PyValue :=
  let fix collect (following : schema) : Result (list (PyValue * PyValue)) :=
    match following with
    | [] => Ok []
    | (name, _) :: rest =>
        rbind (dict_get (Response.fields response) name) (fun v =>
        rbind (collect rest) (fun items => Ok ((PStr name, v) :: items)))
    end in
  rbind (collect response_struct) (fun items =>
    match items with
    | [] => Ok PNone
    | _ :: _ => Ok (PDict items)
    end).

(** [dict(v)] *)
Definition py_dict (v : PyValue) : Result PyValue :=
  match v with
  | PDict items => Ok (PDict items)
  | _ => Raise TypeError
  end.

(** Modelled from the spec: [pyignite.datatypes.cache_properties.prop_map]
    is not among the sources; it resolves a property code in the static
    table and fails with an UnknownPropertyError when the code has no
    entry. *)
Definition prop_map (code : Z) : Result datatypes.t :=
  of_option (UnknownPropertyError code) (prop_table code).

(** *** key_value.py *)

(** [cache_put]: the query structure and the values handed to
    [from_python]. *)
Definition cache_put_request (cache : utils.Cache) (key value : PyValue)
    (key_hint value_hint : option datatypes.t) (binary : bool)
    (query_id : option Z)
  : Query.t * dict PyValue :=
  (Query.make OP_CACHE_PUT
     [("hash_code", datatypes.Int);
      ("flag", datatypes.Byte);
      ("key", hint_or key_hint datatypes.AnyDataObject);
      ("value", hint_or value_hint datatypes.AnyDataObject)]
     query_id,
   [("hash_code", PInt (utils.cache_id cache));
    ("flag", PInt (if binary then 1 else 0));
    ("key", key);
    ("value", value)]).

(** [cache_put], key_value.py lines 29 to 80. *)
Definition cache_put (cache : utils.Cache) (key value : PyValue)
    (key_hint value_hint : option datatypes.t) (binary : bool)
    (query_id : option Z)
  : Api APIResult.t :=
  let (query_struct, values) :=
    cache_put_request cache key value key_hint value_hint binary query_id in
  '(_, send_buffer) <- from_python query_struct values ;;
  send send_buffer ;;;
  let response_struct : schema := [] in
  response <- parse response_struct ;;
  let result := APIResult_of_response response in
  if negb (APIResult.status result =? 0) then ret result
  else
    value <- lift (to_python response_struct response) ;;
    ret (APIResult.set_value result value).

(** [cache_get]: the query structure and the values handed to
    [from_python]. *)
Definition cache_get_request (cache : utils.Cache) (key : PyValue)
    (key_hint : option datatypes.t) (binary : bool)
    (query_id : option Z)
  : Query.t * dict PyValue :=
  (Query.make OP_CACHE_GET
     [("hash_code", datatypes.Int);
      ("flag", datatypes.Byte);
      ("key", hint_or key_hint datatypes.AnyDataObject)]
     query_id,
   [("hash_code", PInt (utils.cache_id cache));
    ("flag", PInt (if binary then 1 else 0));
    ("key", key)]).

(** [cache_get], key_value.py lines 83 to 131. *)
Definition cache_get (cache : utils.Cache) (key : PyValue)
    (key_hint : option datatypes.t) (binary : bool)
    (query_id : option Z)
  : Api APIResult.t :=
  let (query_struct, values) :=
    cache_get_request cache key key_hint binary query_id in
  '(_, send_buffer) <- from_python query_struct values ;;
  send send_buffer ;;;
  let response_struct : schema := [("value", datatypes.AnyDataObject)] in
  response <- parse response_struct ;;
  let result := APIResult_of_response response in
  if negb (APIResult.status result =? 0) then ret result
  else
    fields <- lift (to_python response_struct response) ;;
    value <- lift (py_getitem fields "value") ;;
    ret (APIResult.set_value result value).

(** [cache_get_all]: the query structure and the values handed to
    [from_python]. *)
Definition cache_get_all_request (cache : utils.Cache) (keys : PyValue) (binary : bool)
    (query_id : option Z)
  : Query.t * dict PyValue :=
  (Query.make OP_CACHE_GET_ALL
     [("hash_code", datatypes.Int);
      ("flag", datatypes.Byte);
      ("keys", datatypes.AnyDataArray)]
     query_id,
   [("hash_code", PInt (utils.cache_id cache));
    ("flag", PInt (if binary then 1 else 0));
    ("keys", keys)]).

(** [cache_get_all], key_value.py lines 134 to 180. *)
Definition cache_get_all (cache : utils.Cache) (keys : PyValue) (binary : bool)
    (query_id : option Z)
  : Api APIResult.t :=
  let (query_struct, values) :=
    cache_get_all_request cache keys binary query_id in
  '(_, send_buffer) <- from_python query_struct values ;;
  send send_buffer ;;;
  let response_struct : schema := [("data", datatypes.Map)] in
  response <- parse response_struct ;;
  let result := APIResult_of_response response in
  if negb (APIResult.status result =? 0) then ret result
  else
    fields <- lift (rbind (to_python response_struct response) py_dict) ;;
    value <- lift (py_getitem fields "data") ;;
    ret (APIResult.set_value result value).

(** [cache_put_all]: the query structure and the values handed to
    [from_python]. *)
Definition cache_put_all_request (cache : utils.Cache) (pairs : PyValue) (binary : bool)
    (query_id : option Z)
  : Query.t * dict PyValue :=
  (Query.make OP_CACHE_PUT_ALL
     [("hash_code", datatypes.Int);
      ("flag", datatypes.Byte);
      ("data", datatypes.Map)]
     query_id,
   [("hash_code", PInt (utils.cache_id cache));
    ("flag", PInt (if binary then 1 else 0));
    ("data", pairs)]).

(** [cache_put_all], key_value.py lines 183 to 225. *)
Definition cache_put_all (cache : utils.Cache) (pairs : PyValue) (binary : bool)
    (query_id : option Z)
  : Api APIResult.t :=
  let (query_struct, values) :=
    cache_put_all_request cache pairs binary query_id in
  '(_, send_buffer) <- from_python query_struct values ;;
  send send_buffer ;;;
  let response_struct : schema := [] in
  response <- parse response_struct ;;
  ret (APIResult_of_response response).

(** [cache_contains_key]: the query structure and the values handed to
    [from_python]. *)
Definition cache_contains_key_request (cache : utils.Cache) (key : PyValue)
    (key_hint : option datatypes.t) (binary : bool)
    (query_id : option Z)
  : Query.t * dict PyValue :=
  (Query.make OP_CACHE_CONTAINS_KEY
     [("hash_code", datatypes.Int);
      ("flag", datatypes.Byte);
      ("key", hint_or key_hint datatypes.AnyDataObject)]
     query_id,
   [("hash_code", PInt (utils.cache_id cache));
    ("flag", PInt (if binary then 1 else 0));
    ("key", key)]).

(** [cache_contains_key], key_value.py lines 228 to 277. *)
Definition cache_contains_key (cache : utils.Cache) (key : PyValue)
    (key_hint : option datatypes.t) (binary : bool)
    (query_id : option Z)
  : Api APIResult.t :=
  let (query_struct, values) :=
    cache_contains_key_request cache key key_hint binary query_id in
  '(_, send_buffer) <- from_python query_struct values ;;
  send send_buffer ;;;
  let response_struct : schema := [("value", datatypes.Bool)] in
  response <- parse response_struct ;;
  let result := APIResult_of_response response in
  if negb (APIResult.status result =? 0) then ret result
  else
    fields <- lift (to_python response_struct response) ;;
    value <- lift (py_getitem fields "value") ;;
    ret (APIResult.set_value result value).

(** [cache_contains_keys]: the query structure and the values handed to
    [from_python]. *)
Definition cache_contains_keys_request (cache : utils.Cache) (keys : PyValue) (binary : bool)
    (query_id : option Z)
  : Query.t * dict PyValue :=
  (Query.make OP_CACHE_CONTAINS_KEYS
     [("hash_code", datatypes.Int);
      ("flag", datatypes.Byte);
      ("keys", datatypes.AnyDataArray)]
     query_id,
   [("hash_code", PInt (utils.cache_id cache));
    ("flag", PInt (if binary then 1 else 0));
    ("keys", keys)]).

(** [cache_contains_keys], key_value.py lines 280 to 325. *)
Definition cache_contains_keys (cache : utils.Cache) (keys : PyValue) (binary : bool)
    (query_id : option Z)
  : Api APIResult.t :=
  let (query_struct, values) :=
    cache_contains_keys_request cache keys binary query_id in
  '(_, send_buffer) <- from_python query_struct values ;;
  send send_buffer ;;;
  let response_struct : schema := [("value", datatypes.Bool)] in
  response <- parse response_struct ;;
  let result := APIResult_of_response response in
  if negb (APIResult.status result =? 0) then ret result
  else
    fields <- lift (to_python response_struct response) ;;
    value <- lift (py_getitem fields "value") ;;
    ret (APIResult.set_value result value).

(** [cache_get_and_put]: the query structure and the values handed to
    [from_python]. *)
Definition cache_get_and_put_request (cache : utils.Cache) (key value : PyValue)
    (key_hint value_hint : option datatypes.t) (binary : bool)
    (query_id : option Z)
  : Query.t * dict PyValue :=
  (Query.make OP_CACHE_GET_AND_PUT
     [("hash_code", datatypes.Int);
      ("flag", datatypes.Byte);
      ("key", hint_or key_hint datatypes.AnyDataObject);
      ("value", hint_or value_hint datatypes.AnyDataObject)]
     query_id,
   [("hash_code", PInt (utils.cache_id cache));
    ("flag", PInt (if binary then 1 else 0));
    ("key", key);
    ("value", value)]).

(** [cache_get_and_put], key_value.py lines 328 to 383. *)
Definition cache_get_and_put (cache : utils.Cache) (key value : PyValue)
    (key_hint value_hint : option datatypes.t) (binary : bool)
    (query_id : option Z)
  : Api APIResult.t :=
  let (query_struct, values) :=
    cache_get_and_put_request cache key value key_hint value_hint binary query_id in
  '(_, send_buffer) <- from_python query_struct values ;;
  send send_buffer ;;;
  let response_struct : schema := [("value", datatypes.AnyDataObject)] in
  response <- parse response_struct ;;
  let result := APIResult_of_response response in
  if negb (APIResult.status result =? 0) then ret result
  else
    fields <- lift (to_python response_struct response) ;;
    value <- lift (py_getitem fields "value") ;;
    ret (APIResult.set_value result value).

(** [cache_get_and_replace]: the query structure and the values handed to
    [from_python]. *)
Definition cache_get_and_replace_request (cache : utils.Cache) (key value : PyValue)
    (key_hint value_hint : option datatypes.t) (binary : bool)
    (query_id : option Z)
  : Query.t * dict PyValue :=
  (Query.make OP_CACHE_GET_AND_REPLACE
     [("hash_code", datatypes.Int);
      ("flag", datatypes.Byte);
      ("key", hint_or key_hint datatypes.AnyDataObject);
      ("value", hint_or value_hint datatypes.AnyDataObject)]
     query_id,
   [("hash_code", PInt (utils.cache_id cache));
    ("flag", PInt (if binary then 1 else 0));
    ("key", key);
    ("value", value)]).

(** [cache_get_and_replace], key_value.py lines 386 to 441. *)
Definition cache_get_and_replace (cache : utils.Cache) (key value : PyValue)
    (key_hint value_hint : option datatypes.t) (binary : bool)
    (query_id : option Z)
  : Api APIResult.t :=
  let (query_struct, values) :=
    cache_get_and_replace_request cache key value key_hint value_hint binary query_id in
  '(_, send_buffer) <- from_python query_struct values ;;
  send send_buffer ;;;
  let response_struct : schema := [("value", datatypes.AnyDataObject)] in
  response <- parse response_struct ;;
  let result := APIResult_of_response response in
  if negb (APIResult.status result =? 0) then ret result
  else
    fields <- lift (to_python response_struct response) ;;
    value <- lift (py_getitem fields "value") ;;
    ret (APIResult.set_value result value).

(** [cache_get_and_remove]: the query structure and the values handed to
    [from_python]. *)
Definition cache_get_and_remove_request (cache : utils.Cache) (key : PyValue)
    (key_hint : option datatypes.t) (binary : bool)
    (query_id : option Z)
  : Query.t * dict PyValue :=
  (Query.make OP_CACHE_GET_AND_REMOVE
     [("hash_code", datatypes.Int);
      ("flag", datatypes.Byte);
      ("key", hint_or key_hint datatypes.AnyDataObject)]
     query_id,
   [("hash_code", PInt (utils.cache_id cache));
    ("flag", PInt (if binary then 1 else 0));
    ("key", key)]).

(** [cache_get_and_remove], key_value.py lines 444 to 492. *)
Definition cache_get_and_remove (cache : utils.Cache) (key : PyValue)
    (key_hint : option datatypes.t) (binary : bool)
    (query_id : option Z)
  : Api APIResult.t :=
  let (query_struct, values) :=
    cache_get_and_remove_request cache key key_hint binary query_id in
  '(_, send_buffer) <- from_python query_struct values ;;
  send send_buffer ;;;
  let response_struct : schema := [("value", datatypes.AnyDataObject)] in
  response <- parse response_struct ;;
  let result := APIResult_of_response response in
  if negb (APIResult.status result =? 0) then ret result
  else
    fields <- lift (to_python response_struct response) ;;
    value <- lift (py_getitem fields "value") ;;
    ret (APIResult.set_value result value).

(** [cache_put_if_absent]: the query structure and the values handed to
    [from_python]. *)
Definition cache_put_if_absent_request (cache : utils.Cache) (key value : PyValue)
    (key_hint value_hint : option datatypes.t) (binary : bool)
    (query_id : option Z)
  : Query.t * dict PyValue :=
  (Query.make OP_CACHE_PUT_IF_ABSENT
     [("hash_code", datatypes.Int);
      ("flag", datatypes.Byte);
      ("key", hint_or key_hint datatypes.AnyDataObject);
      ("value", hint_or value_hint datatypes.AnyDataObject)]
     query_id,
   [("hash_code", PInt (utils.cache_id cache));
    ("flag", PInt (if binary then 1 else 0));
    ("key", key);
    ("value", value)]).

(** [cache_put_if_absent], key_value.py lines 495 to 549. *)
Definition cache_put_if_absent (cache : utils.Cache) (key value : PyValue)
    (key_hint value_hint : option datatypes.t) (binary : bool)
    (query_id : option Z)
  : Api APIResult.t :=
  let (query_struct, values) :=
    cache_put_if_absent_request cache key value key_hint value_hint binary query_id in
  '(_, send_buffer) <- from_python query_struct values ;;
  send send_buffer ;;;
  let response_struct : schema := [("success", datatypes.Bool)] in
  response <- parse response_struct ;;
  let result := APIResult_of_response response in
  if negb (APIResult.status result =? 0) then ret result
  else
    fields <- lift (to_python response_struct response) ;;
    value <- lift (py_getitem fields "success") ;;
    ret (APIResult.set_value result value).

(** [cache_get_and_put_if_absent]: the query structure and the values handed to
    [from_python]. *)
Definition cache_get_and_put_if_absent_request (cache : utils.Cache) (key value : PyValue)
    (key_hint value_hint : option datatypes.t) (binary : bool)
    (query_id : option Z)
  : Query.t * dict PyValue :=
  (Query.make OP_CACHE_GET_AND_PUT_IF_ABSENT
     [("hash_code", datatypes.Int);
      ("flag", datatypes.Byte);
      ("key", hint_or key_hint datatypes.AnyDataObject);
      ("value", hint_or value_hint datatypes.AnyDataObject)]
     query_id,
   [("hash_code", PInt (utils.cache_id cache));
    ("flag", PInt (if binary then 1 else 0));
    ("key", key);
    ("value", value)]).

(** [cache_get_and_put_if_absent], key_value.py lines 552 to 606. *)
Definition cache_get_and_put_if_absent (cache : utils.Cache) (key value : PyValue)
    (key_hint value_hint : option datatypes.t) (binary : bool)
    (query_id : option Z)
  : Api APIResult.t :=
  let (query_struct, values) :=
    cache_get_and_put_if_absent_request cache key value key_hint value_hint binary query_id in
  '(_, send_buffer) <- from_python query_struct values ;;
  send send_buffer ;;;
  let response_struct : schema := [("value", datatypes.AnyDataObject)] in
  response <- parse response_struct ;;
  let result := APIResult_of_response response in
  if negb (APIResult.status result =? 0) then ret result
  else
    fields <- lift (to_python response_struct response) ;;
    value <- lift (py_getitem fields "value") ;;
    ret (APIResult.set_value result value).

(** [cache_replace]: the query structure and the values handed to
    [from_python]. *)
Definition cache_replace_request (cache : utils.Cache) (key value : PyValue)
    (key_hint value_hint : option datatypes.t) (binary : bool)
    (query_id : option Z)
  : Query.t * dict PyValue :=
  (Query.make OP_CACHE_REPLACE
     [("hash_code", datatypes.Int);
      ("flag", datatypes.Byte);
      ("key", hint_or key_hint datatypes.AnyDataObject);
      ("value", hint_or value_hint datatypes.AnyDataObject)]
     query_id,
   [("hash_code", PInt (utils.cache_id cache));
    ("flag", PInt (if binary then 1 else 0));
    ("key", key);
    ("value", value)]).

(** [cache_replace], key_value.py lines 609 to 663. *)
Definition cache_replace (cache : utils.Cache) (key value : PyValue)
    (key_hint value_hint : option datatypes.t) (binary : bool)
    (query_id : option Z)
  : Api APIResult.t :=
  let (query_struct, values) :=
    cache_replace_request cache key value key_hint value_hint binary query_id in
  '(_, send_buffer) <- from_python query_struct values ;;
  send send_buffer ;;;
  let response_struct : schema := [("success", datatypes.Bool)] in
  response <- parse response_struct ;;
  let result := APIResult_of_response response in
  if negb (APIResult.status result =? 0) then ret result
  else
    fields <- lift (to_python response_struct response) ;;
    value <- lift (py_getitem fields "success") ;;
    ret (APIResult.set_value result value).

(** [cache_replace_if_equals]: the query structure and the values handed to
    [from_python]. *)
Definition cache_replace_if_equals_request (cache : utils.Cache) (key sample value : PyValue)
    (key_hint sample_hint value_hint : option datatypes.t) (binary : bool)
    (query_id : option Z)
  : Query.t * dict PyValue :=
  (Query.make OP_CACHE_REPLACE_IF_EQUALS
     [("hash_code", datatypes.Int);
      ("flag", datatypes.Byte);
      ("key", hint_or key_hint datatypes.AnyDataObject);
      ("sample", hint_or sample_hint datatypes.AnyDataObject);
      ("value", hint_or value_hint datatypes.AnyDataObject)]
     query_id,
   [("hash_code", PInt (utils.cache_id cache));
    ("flag", PInt (if binary then 1 else 0));
    ("key", key);
    ("sample", sample);
    ("value", value)]).

(** [cache_replace_if_equals], key_value.py lines 666 to 727. *)
Definition cache_replace_if_equals (cache : utils.Cache) (key sample value : PyValue)
    (key_hint sample_hint value_hint : option datatypes.t) (binary : bool)
    (query_id : option Z)
  : Api APIResult.t :=
  let (query_struct, values) :=
    cache_replace_if_equals_request cache key sample value key_hint sample_hint value_hint binary query_id in
  '(_, send_buffer) <- from_python query_struct values ;;
  send send_buffer ;;;
  let response_struct : schema := [("success", datatypes.Bool)] in
  response <- parse response_struct ;;
  let result := APIResult_of_response response in
  if negb (APIResult.status result =? 0) then ret result
  else
    fields <- lift (to_python response_struct response) ;;
    value <- lift (py_getitem fields "success") ;;
    ret (APIResult.set_value result value).

(** [cache_clear]: the query structure and the values handed to
    [from_python]. *)
Definition cache_clear_request (cache : utils.Cache) (binary : bool)
    (query_id : option Z)
  : Query.t * dict PyValue :=
  (Query.make OP_CACHE_CLEAR
     [("hash_code", datatypes.Int);
      ("flag", datatypes.Byte)]
     query_id,
   [("hash_code", PInt (utils.cache_id cache));
    ("flag", PInt (if binary then 1 else 0))]).

(** [cache_clear], key_value.py lines 730 to 766. *)
Definition cache_clear (cache : utils.Cache) (binary : bool)
    (query_id : option Z)
  : Api APIResult.t :=
  let (query_struct, values) :=
    cache_clear_request cache binary query_id in
  '(_, send_buffer) <- from_python query_struct values ;;
  send send_buffer ;;;
  let response_struct : schema := [] in
  response <- parse response_struct ;;
  ret (APIResult_of_response response).

(** [cache_clear_key]: the query structure and the values handed to
    [from_python]. *)
Definition cache_clear_key_request (cache : utils.Cache) (key : PyValue)
    (key_hint : option datatypes.t) (binary : bool)
    (query_id : option Z)
  : Query.t * dict PyValue :=
  (Query.make OP_CACHE_CLEAR_KEY
     [("hash_code", datatypes.Int);
      ("flag", datatypes.Byte);
      ("key", hint_or key_hint datatypes.AnyDataObject)]
     query_id,
   [("hash_code", PInt (utils.cache_id cache));
    ("flag", PInt (if binary then 1 else 0));
    ("key", key)]).

(** [cache_clear_key], key_value.py lines 769 to 811. *)
Definition cache_clear_key (cache : utils.Cache) (key : PyValue)
    (key_hint : option datatypes.t) (binary : bool)
    (query_id : option Z)
  : Api APIResult.t :=
  let (query_struct, values) :=
    cache_clear_key_request cache key key_hint binary query_id in
  '(_, send_buffer) <- from_python query_struct values ;;
  send send_buffer ;;;
  let response_struct : schema := [] in
  response <- parse response_struct ;;
  ret (APIResult_of_response response).

(** [cache_clear_keys]: the query structure and the values handed to
    [from_python]. *)
Definition cache_clear_keys_request (cache : utils.Cache) (keys : PyValue) (binary : bool)
    (query_id : option Z)
  : Query.t * dict PyValue :=
  (Query.make OP_CACHE_CLEAR_KEYS
     [("hash_code", datatypes.Int);
      ("flag", datatypes.Byte);
      ("keys", datatypes.AnyDataArray)]
     query_id,
   [("hash_code", PInt (utils.cache_id cache));
    ("flag", PInt (if binary then 1 else 0));
    ("keys", keys)]).

(** [cache_clear_keys], key_value.py lines 814 to 853. *)
Definition cache_clear_keys (cache : utils.Cache) (keys : PyValue) (binary : bool)
    (query_id : option Z)
  : Api APIResult.t :=
  let (query_struct, values) :=
    cache_clear_keys_request cache keys binary query_id in
  '(_, send_buffer) <- from_python query_struct values ;;
  send send_buffer ;;;
  let response_struct : schema := [] in
  response <- parse response_struct ;;
  ret (APIResult_of_response response).

(** [cache_remove_key]: the query structure and the values handed to
    [from_python]. *)
Definition cache_remove_key_request (cache : utils.Cache) (key : PyValue)
    (key_hint : option datatypes.t) (binary : bool)
    (query_id : option Z)
  : Query.t * dict PyValue :=
  (Query.make OP_CACHE_REMOVE_KEY
     [("hash_code", datatypes.Int);
      ("flag", datatypes.Byte);
      ("key", hint_or key_hint datatypes.AnyDataObject)]
     query_id,
   [("hash_code", PInt (utils.cache_id cache));
    ("flag", PInt (if binary then 1 else 0));
    ("key", key)]).

(** [cache_remove_key], key_value.py lines 856 to 904. *)
Definition cache_remove_key (cache : utils.Cache) (key : PyValue)
    (key_hint : option datatypes.t) (binary : bool)
    (query_id : option Z)
  : Api APIResult.t :=
  let (query_struct, values) :=
    cache_remove_key_request cache key key_hint binary query_id in
  '(_, send_buffer) <- from_python query_struct values ;;
  send send_buffer ;;;
  let response_struct : schema := [("success", datatypes.Bool)] in
  response <- parse response_struct ;;
  let result := APIResult_of_response response in
  if negb (APIResult.status result =? 0) then ret result
  else
    fields <- lift (to_python response_struct response) ;;
    value <- lift (py_getitem fields "success") ;;
    ret (APIResult.set_value result value).

(** [cache_remove_if_equals]: the query structure and the values handed to
    [from_python]. *)
Definition cache_remove_if_equals_request (cache : utils.Cache) (key sample : PyValue)
    (key_hint sample_hint : option datatypes.t) (binary : bool)
    (query_id : option Z)
  : Query.t * dict PyValue :=
  (Query.make OP_CACHE_REMOVE_IF_EQUALS
     [("hash_code", datatypes.Int);
      ("flag", datatypes.Byte);
      ("key", hint_or key_hint datatypes.AnyDataObject);
      ("sample", hint_or sample_hint datatypes.AnyDataObject)]
     query_id,
   [("hash_code", PInt (utils.cache_id cache));
    ("flag", PInt (if binary then 1 else 0));
    ("key", key);
    ("sample", sample)]).

(** [cache_remove_if_equals], key_value.py lines 907 to 963. *)
Definition cache_remove_if_equals (cache : utils.Cache) (key sample : PyValue)
    (key_hint sample_hint : option datatypes.t) (binary : bool)
    (query_id : option Z)
  : Api APIResult.t :=
  let (query_struct, values) :=
    cache_remove_if_equals_request cache key sample key_hint sample_hint binary query_id in
  '(_, send_buffer) <- from_python query_struct values ;;
  send send_buffer ;;;
  let response_struct : schema := [("success", datatypes.Bool)] in
  response <- parse response_struct ;;
  let result := APIResult_of_response response in
  if negb (APIResult.status result =? 0) then ret result
  else
    fields <- lift (to_python response_struct response) ;;
    value <- lift (py_getitem fields "success") ;;
    ret (APIResult.set_value result value).

(** [cache_remove_keys]: the query structure and the values handed to
    [from_python]. *)
Definition cache_remove_keys_request (cache : utils.Cache) (keys : PyValue) (binary : bool)
    (query_id : option Z)
  : Query.t * dict PyValue :=
  (Query.make OP_CACHE_REMOVE_KEYS
     [("hash_code", datatypes.Int);
      ("flag", datatypes.Byte);
      ("keys", datatypes.AnyDataArray)]
     query_id,
   [("hash_code", PInt (utils.cache_id cache));
    ("flag", PInt (if binary then 1 else 0));
    ("keys", keys)]).

(** [cache_remove_keys], key_value.py lines 966 to 1005. *)
Definition cache_remove_keys (cache : utils.Cache) (keys : PyValue) (binary : bool)
    (query_id : option Z)
  : Api APIResult.t :=
  let (query_struct, values) :=
    cache_remove_keys_request cache keys binary query_id in
  '(_, send_buffer) <- from_python query_struct values ;;
  send send_buffer ;;;
  let response_struct : schema := [] in
  response <- parse response_struct ;;
  ret (APIResult_of_response response).

(** [cache_remove_all]: the query structure and the values handed to
    [from_python]. *)
Definition cache_remove_all_request (cache : utils.Cache) (binary : bool)
    (query_id : option Z)
  : Query.t * dict PyValue :=
  (Query.make OP_CACHE_REMOVE_ALL
     [("hash_code", datatypes.Int);
      ("flag", datatypes.Byte)]
     query_id,
   [("hash_code", PInt (utils.cache_id cache));
    ("flag", PInt (if binary then 1 else 0))]).

(** [cache_remove_all], key_value.py lines 1008 to 1044. *)
Definition cache_remove_all (cache : utils.Cache) (binary : bool)
    (query_id : option Z)
  : Api APIResult.t :=
  let (query_struct, values) :=
    cache_remove_all_request cache binary query_id in
  '(_, send_buffer) <- from_python query_struct values ;;
  send send_buffer ;;;
  let response_struct : schema := [] in
  response <- parse response_struct ;;
  ret (APIResult_of_response response).

(** [cache_get_size]: the query structure and the values handed to
    [from_python]. *)
Definition cache_get_size_request (cache : utils.Cache) (peek_modes : PyValue) (binary : bool)
    (query_id : option Z)
  : Query.t * dict PyValue :=
  let peek_modes :=
    if negb (is_list_or_tuple peek_modes) then
      if py_eq_zero peek_modes then PList [] else PList [peek_modes]
    else peek_modes in
  (Query.make OP_CACHE_GET_SIZE
     [("hash_code", datatypes.Int);
      ("flag", datatypes.Byte);
      ("peek_modes", datatypes.PeekModes)]
     query_id,
   [("hash_code", PInt (utils.cache_id cache));
    ("flag", PInt (if binary then 1 else 0));
    ("peek_modes", peek_modes)]).

(** [cache_get_size], key_value.py lines 1047 to 1100. *)
Definition cache_get_size (cache : utils.Cache) (peek_modes : PyValue) (binary : bool)
    (query_id : option Z)
  : Api APIResult.t :=
  let (query_struct, values) :=
    cache_get_size_request cache peek_modes binary query_id in
  '(_, send_buffer) <- from_python query_struct values ;;
  send send_buffer ;;;
  let response_struct : schema := [("count", datatypes.Long)] in
  response <- parse response_struct ;;
  let result := APIResult_of_response response in
  if negb (APIResult.status result =? 0) then ret result
  else
    fields <- lift (to_python response_struct response) ;;
    value <- lift (py_getitem fields "count") ;;
    ret (APIResult.set_value result value).

Definition kv_request (call : KVCall) (cache : utils.Cache) (binary : bool)
    (query_id : option Z) : Query.t * dict PyValue :=
  match call with
  | Call_cache_put key value key_hint value_hint =>
      cache_put_request cache key value key_hint value_hint binary query_id
  | Call_cache_get key key_hint =>
      cache_get_request cache key key_hint binary query_id
  | Call_cache_get_all keys =>
      cache_get_all_request cache keys binary query_id
  | Call_cache_put_all pairs =>
      cache_put_all_request cache pairs binary query_id
  | Call_cache_contains_key key key_hint =>
      cache_contains_key_request cache key key_hint binary query_id
  | Call_cache_contains_keys keys =>
      cache_contains_keys_request cache keys binary query_id
  | Call_cache_get_and_put key value key_hint value_hint =>
      cache_get_and_put_request cache key value key_hint value_hint binary query_id
  | Call_cache_get_and_replace key value key_hint value_hint =>
      cache_get_and_replace_request cache key value key_hint value_hint binary query_id
  | Call_cache_get_and_remove key key_hint =>
      cache_get_and_remove_request cache key key_hint binary query_id
  | Call_cache_put_if_absent key value key_hint value_hint =>
      cache_put_if_absent_request cache key value key_hint value_hint binary query_id
  | Call_cache_get_and_put_if_absent key value key_hint value_hint =>
      cache_get_and_put_if_absent_request cache key value key_hint value_hint binary query_id
  | Call_cache_replace key value key_hint value_hint =>
      cache_replace_request cache key value key_hint value_hint binary query_id
  | Call_cache_replace_if_equals key sample value key_hint sample_hint value_hint =>
      cache_replace_if_equals_request cache key sample value key_hint sample_hint value_hint binary query_id
  | Call_cache_clear =>
      cache_clear_request cache binary query_id
  | Call_cache_clear_key key key_hint =>
      cache_clear_key_request cache key key_hint binary query_id
  | Call_cache_clear_keys keys =>
      cache_clear_keys_request cache keys binary query_id
  | Call_cache_remove_key key key_hint =>
      cache_remove_key_request cache key key_hint binary query_id
  | Call_cache_remove_if_equals key sample key_hint sample_hint =>
      cache_remove_if_equals_request cache key sample key_hint sample_hint binary query_id
  | Call_cache_remove_keys keys =>
      cache_remove_keys_request cache keys binary query_id
  | Call_cache_remove_all =>
      cache_remove_all_request cache binary query_id
  | Call_cache_get_size peek_modes =>
      cache_get_size_request cache peek_modes binary query_id
  end.

Definition kv_call (call : KVCall) (cache : utils.Cache) (binary : bool)
    (query_id : option Z) : Api APIResult.t :=
  match call with
  | Call_cache_put key value key_hint value_hint =>
      cache_put cache key value key_hint value_hint binary query_id
  | Call_cache_get key key_hint =>
      cache_get cache key key_hint binary query_id
  | Call_cache_get_all keys =>
      cache_get_all cache keys binary query_id
  | Call_cache_put_all pairs =>
      cache_put_all cache pairs binary query_id
  | Call_cache_contains_key key key_hint =>
      cache_contains_key cache key key_hint binary query_id
  | Call_cache_contains_keys keys =>
      cache_contains_keys cache keys binary query_id
  | Call_cache_get_and_put key value key_hint value_hint =>
      cache_get_and_put cache key value key_hint value_hint binary query_id
  | Call_cache_get_and_replace key value key_hint value_hint =>
      cache_get_and_replace cache key value key_hint value_hint binary query_id
  | Call_cache_get_and_remove key key_hint =>
      cache_get_and_remove cache key key_hint binary query_id
  | Call_cache_put_if_absent key value key_hint value_hint =>
      cache_put_if_absent cache key value key_hint value_hint binary query_id
  | Call_cache_get_and_put_if_absent key value key_hint value_hint =>
      cache_get_and_put_if_absent cache key value key_hint value_hint binary query_id
  | Call_cache_replace key value key_hint value_hint =>
      cache_replace cache key value key_hint value_hint binary query_id
  | Call_cache_replace_if_equals key sample value key_hint sample_hint value_hint =>
      cache_replace_if_equals cache key sample value key_hint sample_hint value_hint binary query_id
  | Call_cache_clear =>
      cache_clear cache binary query_id
  | Call_cache_clear_key key key_hint =>
      cache_clear_key cache key key_hint binary query_id
  | Call_cache_clear_keys keys =>
      cache_clear_keys cache keys binary query_id
  | Call_cache_remove_key key key_hint =>
      cache_remove_key cache key key_hint binary query_id
  | Call_cache_remove_if_equals key sample key_hint sample_hint =>
      cache_remove_if_equals cache key sample key_hint sample_hint binary query_id
  | Call_cache_remove_keys keys =>
      cache_remove_keys cache keys binary query_id
  | Call_cache_remove_all =>
      cache_remove_all cache binary query_id
  | Call_cache_get_size peek_modes =>
      cache_get_size cache peek_modes binary query_id
  end.

Definition kv_response_schema (call : KVCall) : schema :=
  match call with
  | Call_cache_put _ _ _ _ => []
  | Call_cache_get _ _ => [("value", datatypes.AnyDataObject)]
  | Call_cache_get_all _ => [("data", datatypes.Map)]
  | Call_cache_put_all _ => []
  | Call_cache_contains_key _ _ => [("value", datatypes.Bool)]
  | Call_cache_contains_keys _ => [("value", datatypes.Bool)]
  | Call_cache_get_and_put _ _ _ _ => [("value", datatypes.AnyDataObject)]
  | Call_cache_get_and_replace _ _ _ _ => [("value", datatypes.AnyDataObject)]
  | Call_cache_get_and_remove _ _ => [("value", datatypes.AnyDataObject)]
  | Call_cache_put_if_absent _ _ _ _ => [("success", datatypes.Bool)]
  | Call_cache_get_and_put_if_absent _ _ _ _ => [("value", datatypes.AnyDataObject)]
  | Call_cache_replace _ _ _ _ => [("success", datatypes.Bool)]
  | Call_cache_replace_if_equals _ _ _ _ _ _ => [("success", datatypes.Bool)]
  | Call_cache_clear => []
  | Call_cache_clear_key _ _ => []
  | Call_cache_clear_keys _ => []
  | Call_cache_remove_key _ _ => [("success", datatypes.Bool)]
  | Call_cache_remove_if_equals _ _ _ _ => [("success", datatypes.Bool)]
  | Call_cache_remove_keys _ => []
  | Call_cache_remove_all => []
  | Call_cache_get_size _ => [("count", datatypes.Long)]
  end.

(** *** cache_config.py *)

(** [cache_get_configuration], lines 54 to 65. *)
Definition cache_get_configuration_request (cache : utils.Cache) (flags : Z)
    (query_id : option Z) : Query.t * dict PyValue :=
  (Query.make OP_CACHE_GET_CONFIGURATION
     [("hash_code", datatypes.Int);
      ("flags", datatypes.Byte)]
     query_id,
   [("hash_code", PInt (utils.cache_id cache));
    ("flags", PInt flags)]).

(** [cache_get_configuration], cache_config.py lines 38 to 77. *)
Definition cache_get_configuration (cache : utils.Cache) (flags : Z)
    (query_id : option Z) : Api APIResult.t :=
  let (query_struct, values) :=
    cache_get_configuration_request cache flags query_id in
  '(_, send_buffer) <- from_python query_struct values ;;
  send send_buffer ;;;
  let response_struct : schema :=
    [("cache_config", datatypes.cache_config_struct)] in
  response <- parse response_struct ;;
  let result := APIResult_of_response response in
  if negb (APIResult.status result =? 0) then ret result
  else
    fields <- lift (to_python response_struct response) ;;
    value <- lift (py_getitem fields "cache_config") ;;
    ret (APIResult.set_value result value).

Definition cache_create_request (name : string) (query_id : option Z)
  : Query.t * dict PyValue :=
  (Query.make OP_CACHE_CREATE_WITH_NAME
     [("cache_name", datatypes.String)] query_id,
   [("cache_name", PStr name)]).

(** [cache_create], cache_config.py lines 80 to 107. *)
Definition cache_create (name : string) (query_id : option Z)
  : Api APIResult.t :=
  let (query_struct, values) := cache_create_request name query_id in
  '(_, send_buffer) <- from_python query_struct values ;;
  send send_buffer ;;;
  let response_struct : schema := [] in
  response <- parse response_struct ;;
  ret (APIResult_of_response response).

Definition cache_get_or_create_request (name : string) (query_id : option Z)
  : Query.t * dict PyValue :=
  (Query.make OP_CACHE_GET_OR_CREATE_WITH_NAME
     [("cache_name", datatypes.String)] query_id,
   [("cache_name", PStr name)]).

(** [cache_get_or_create], cache_config.py lines 110 to 136. *)
Definition cache_get_or_create (name : string) (query_id : option Z)
  : Api APIResult.t :=
  let (query_struct, values) := cache_get_or_create_request name query_id in
  '(_, send_buffer) <- from_python query_struct values ;;
  send send_buffer ;;;
  let response_struct : schema := [] in
  response <- parse response_struct ;;
  ret (APIResult_of_response response).

Definition cache_destroy_request (cache : utils.Cache) (query_id : option Z)
  : Query.t * dict PyValue :=
  (Query.make OP_CACHE_DESTROY
     [("hash_code", datatypes.Int)] query_id,
   [("hash_code", PInt (utils.cache_id cache))]).

(** [cache_destroy], cache_config.py lines 139 to 169. *)
Definition cache_destroy (cache : utils.Cache) (query_id : option Z)
  : Api APIResult.t :=
  let (query_struct, values) := cache_destroy_request cache query_id in
  '(_, send_buffer) <- from_python query_struct values ;;
  send send_buffer ;;;
  let response_struct : schema := [] in
  response <- parse response_struct ;;
  ret (APIResult_of_response response).

(** The query has no field and [from_python()] is called with no value. *)
Definition cache_get_names_request (query_id : option Z)
  : Query.t * dict PyValue :=
  (Query.make OP_CACHE_GET_NAMES [] query_id, []).

(** [cache_get_names], cache_config.py lines 172 to 201. *)
Definition cache_get_names (query_id : option Z) : Api APIResult.t :=
  let (query_struct, values) := cache_get_names_request query_id in
  '(_, send_buffer) <- from_python query_struct values ;;
  send send_buffer ;;;
  let response_struct : schema :=
    [("cache_names", datatypes.StringArray)] in
  response <- parse response_struct ;;
  let result := APIResult_of_response response in
  if negb (APIResult.status result =? 0) then ret result
  else
    fields <- lift (to_python response_struct response) ;;
    value <- lift (py_getitem fields "cache_names") ;;
    ret (APIResult.set_value result value).

(** The loop of [cache_create_with_config] over
    [enumerate(cache_props.items())], lines 227 to 231. *)
Fixpoint collect_properties (i : nat) (items : PropertyMap)
    (prop_types : dict datatypes.t) (prop_values : dict PyValue)
  : Result (dict datatypes.t * dict PyValue) :=
  match items with
  | [] => Ok (prop_types, prop_values)
  | (prop_code, prop_value) :: rest =>
      let prop_name := property_name i in
      rbind (prop_map prop_code) (fun prop_type =>
        collect_properties (S i) rest
          (dict_set prop_types prop_name prop_type)
          (dict_set prop_values prop_name prop_value))
  end.

(** The dynamic config-schema builder, lines 225 to 236 of
    [cache_create_with_config]: the schema and the values of a
    configuration request. *)
Definition build_config_schema (cache_props : PropertyMap)
  : Result (schema * dict PyValue) :=
  rbind (collect_properties 0 cache_props [] []) (fun '(prop_types, prop_values) =>
    let prop_values :=
      dict_set prop_values "param_count"
        (PInt (Z.of_nat (List.length cache_props))) in
    Ok (("param_count", datatypes.Short) :: prop_types, prop_values)).

Definition cache_create_with_config_request (cache_props : PropertyMap)
    (query_id : option Z) : Result (Query.t * dict PyValue) :=
  rbind (build_config_schema cache_props) (fun '(following, prop_values) =>
    Ok (Query.make OP_CACHE_CREATE_WITH_CONFIGURATION following query_id,
        prop_values)).

(** [cache_create_with_config], cache_config.py lines 204 to 245. *)
Definition cache_create_with_config (cache_props : PropertyMap)
    (query_id : option Z) : Api APIResult.t :=
  '(query_struct, prop_values) <-
    lift (cache_create_with_config_request cache_props query_id) ;;
  '(_, send_buffer) <- from_python query_struct prop_values ;;
  send send_buffer ;;;
  let response_struct : schema := [] in
  response <- parse response_struct ;;
  ret (APIResult_of_response response).

(** The loop of [cache_get_or_create_with_config], lines 271 to 275. *)
Fixpoint collect_properties' (i : nat) (items : PropertyMap)
    (prop_types : dict datatypes.t) (prop_values : dict PyValue)
  : Result (dict datatypes.t * dict PyValue) :=
  match items with
  | [] => Ok (prop_types, prop_values)
  | (prop_code, prop_value) :: rest =>
      let prop_name := property_name i in
      rbind (prop_map prop_code) (fun prop_type =>
        collect_properties' (S i) rest
          (dict_set prop_types prop_name prop_type)
          (dict_set prop_values prop_name prop_value))
  end.

(** [cache_get_or_create_with_config], lines 266 to 280. *)
Definition cache_get_or_create_with_config_request (cache_props : PropertyMap)
    (query_id : option Z) : Result (Query.t * dict PyValue) :=
  rbind (collect_properties' 0 cache_props [] []) (fun '(prop_types, prop_values) =>
    let prop_values :=
      dict_set prop_values "param_count"
        (PInt (Z.of_nat (List.length cache_props))) in
    Ok (Query.make OP_CACHE_GET_OR_CREATE_WITH_CONFIGURATION
          (("param_count", datatypes.Short) :: prop_types) query_id,
        prop_values)).

(** [cache_get_or_create_with_config], cache_config.py lines 248 to 289. *)
Definition cache_get_or_create_with_config (cache_props : PropertyMap)
    (query_id : option Z) : Api APIResult.t :=
  '(query_struct, prop_values) <-
    lift (cache_get_or_create_with_config_request cache_props query_id) ;;
  '(_, send_buffer) <- from_python query_struct prop_values ;;
  send send_buffer ;;;
  let response_struct : schema := [] in
  response <- parse response_struct ;;
  ret (APIResult_of_response response).

(** *** Every call of the two modules *)

Definition config_call (call : ConfigCall) : Api APIResult.t :=
  match call with
  | Call_cache_get_configuration cache flags query_id =>
      cache_get_configuration cache flags query_id
  | Call_cache_create name query_id => cache_create name query_id
  | Call_cache_get_or_create name query_id => cache_get_or_create name query_id
  | Call_cache_destroy cache query_id => cache_destroy cache query_id
  | Call_cache_get_names query_id => cache_get_names query_id
  | Call_cache_create_with_config cache_props query_id =>
      cache_create_with_config cache_props query_id
  | Call_cache_get_or_create_with_config cache_props query_id =>
      cache_get_or_create_with_config cache_props query_id
  end.

Definition config_response_schema (call : ConfigCall) : schema :=
  match call with
  | Call_cache_get_configuration _ _ _ =>
      [("cache_config", datatypes.cache_config_struct)]
  | Call_cache_get_names _ => [("cache_names", datatypes.StringArray)]
  | _ => []
  end.

Definition run (call : Call) : Api APIResult.t :=
  match call with
  | KV op cache binary query_id => kv_call op cache binary query_id
  | Config c => config_call c
  end.

Definition response_schema (call : Call) : schema :=
  match call with
  | KV op _ _ _ => kv_response_schema op
  | Config c => config_response_schema c
  end.

(** *** What the schema builder is expected to produce

    The properties numbered from [i], in the order supplied. *)

Fixpoint numbered_types (i : nat) (types : list datatypes.t) : schema :=
  match types with
  | [] => []
  | t :: ts => (property_name i, t) :: numbered_types (S i) ts
  end.

Fixpoint numbered_values (i : nat) (props : PropertyMap) : dict PyValue :=
  match props with
  | [] => []
  | (_, v) :: ps => (property_name i, v) :: numbered_values (S i) ps
  end.

Fixpoint numbered_fields (i : nat) (props : PropertyMap)
    (types : list datatypes.t) : list Field :=
  match props, types with
  | (_, v) :: ps, t :: ts =>
      (property_name i, t, v) :: numbered_fields (S i) ps ts
  | _, _ => []
  end.

(** The property codes of [props] resolve, in order, to [types]. *)
Definition resolves (props : PropertyMap) (types : list datatypes.t) : Prop :=
  Forall2 (fun p t => prop_table (fst p) = Some t) props types.

(** *** The shape every call shares

    Each function sends the encoded request, decodes the next frame
    against its response schema and finishes in one of four ways. *)

Inductive Finish : Type :=
| Plain                          (* [return APIResult(response)] *)
| Whole                          (* [result.value = to_python(response)] *)
| FieldOf (name : string)        (* [result.value = to_python(response)[name]] *)
| DictFieldOf (name : string).   (* [result.value = dict(to_python(response))[name]] *)

Definition finish (f : Finish) (response_struct : schema)
    (response : Response.t) : Api APIResult.t :=
  let result := APIResult_of_response response in
  match f with
  | Plain => ret result
  | Whole =>
      if negb (APIResult.status result =? 0) then ret result
      else
        value <- lift (to_python response_struct response) ;;
        ret (APIResult.set_value result value)
  | FieldOf name =>
      if negb (APIResult.status result =? 0) then ret result
      else
        fields <- lift (to_python response_struct response) ;;
        value <- lift (py_getitem fields name) ;;
        ret (APIResult.set_value result value)
  | DictFieldOf name =>
      if negb (APIResult.status result =? 0) then ret result
      else
        fields <- lift (rbind (to_python response_struct response) py_dict) ;;
        value <- lift (py_getitem fields name) ;;
        ret (APIResult.set_value result value)
  end.

Definition exchange (request : Query.t * dict PyValue)
    (response_struct : schema) (f : Finish) : Api APIResult.t :=
  '(_, send_buffer) <- from_python (fst request) (snd request) ;;
  send send_buffer ;;;
  response <- parse response_struct ;;
  finish f response_struct response.

Definition kv_finish (call : KVCall) : Finish :=
  match kv_response_schema call with
  | [] => match call with
          | Call_cache_put _ _ _ _ => Whole
          | _ => Plain
          end
  | (name, _) :: _ =>
      match call with
      | Call_cache_get_all _ => DictFieldOf name
      | _ => FieldOf name
      end
  end.

Definition request_of (call : Call) : Result (Query.t * dict PyValue) :=
  match call with
  | KV op cache binary query_id => Ok (kv_request op cache binary query_id)
  | Config (Call_cache_get_configuration cache flags query_id) =>
      Ok (cache_get_configuration_request cache flags query_id)
  | Config (Call_cache_create name query_id) =>
      Ok (cache_create_request name query_id)
  | Config (Call_cache_get_or_create name query_id) =>
      Ok (cache_get_or_create_request name query_id)
  | Config (Call_cache_destroy cache query_id) =>
      Ok (cache_destroy_request cache query_id)
  | Config (Call_cache_get_names query_id) =>
      Ok (cache_get_names_request query_id)
  | Config (Call_cache_create_with_config cache_props query_id) =>
      cache_create_with_config_request cache_props query_id
  | Config (Call_cache_get_or_create_with_config cache_props query_id) =>
      cache_get_or_create_with_config_request cache_props query_id
  end.

Definition finish_of (call : Call) : Finish :=
  match call with
  | KV op _ _ _ => kv_finish op
  | Config c =>
      match config_response_schema c with
      | [] => Plain
      | (name, _) :: _ => FieldOf name
      end
  end.

(** *** Names used to state facts about every call *)

(** The Python function a call stands for. *)
Definition function_name (call : Call) : string :=
  match call with
  | KV (Call_cache_put _ _ _ _) _ _ _ => "cache_put"
  | KV (Call_cache_get _ _) _ _ _ => "cache_get"
  | KV (Call_cache_get_all _) _ _ _ => "cache_get_all"
  | KV (Call_cache_put_all _) _ _ _ => "cache_put_all"
  | KV (Call_cache_contains_key _ _) _ _ _ => "cache_contains_key"
  | KV (Call_cache_contains_keys _) _ _ _ => "cache_contains_keys"
  | KV (Call_cache_get_and_put _ _ _ _) _ _ _ => "cache_get_and_put"
  | KV (Call_cache_get_and_replace _ _ _ _) _ _ _ => "cache_get_and_replace"
  | KV (Call_cache_get_and_remove _ _) _ _ _ => "cache_get_and_remove"
  | KV (Call_cache_put_if_absent _ _ _ _) _ _ _ => "cache_put_if_absent"
  | KV (Call_cache_get_and_put_if_absent _ _ _ _) _ _ _ => "cache_get_and_put_if_absent"
  | KV (Call_cache_replace _ _ _ _) _ _ _ => "cache_replace"
  | KV (Call_cache_replace_if_equals _ _ _ _ _ _) _ _ _ => "cache_replace_if_equals"
  | KV Call_cache_clear _ _ _ => "cache_clear"
  | KV (Call_cache_clear_key _ _) _ _ _ => "cache_clear_key"
  | KV (Call_cache_clear_keys _) _ _ _ => "cache_clear_keys"
  | KV (Call_cache_remove_key _ _) _ _ _ => "cache_remove_key"
  | KV (Call_cache_remove_if_equals _ _ _ _) _ _ _ => "cache_remove_if_equals"
  | KV (Call_cache_remove_keys _) _ _ _ => "cache_remove_keys"
  | KV Call_cache_remove_all _ _ _ => "cache_remove_all"
  | KV (Call_cache_get_size _) _ _ _ => "cache_get_size"
  | Config (Call_cache_get_configuration _ _ _) => "cache_get_configuration"
  | Config (Call_cache_create _ _) => "cache_create"
  | Config (Call_cache_get_or_create _ _) => "cache_get_or_create"
  | Config (Call_cache_destroy _ _) => "cache_destroy"
  | Config (Call_cache_get_names _) => "cache_get_names"
  | Config (Call_cache_create_with_config _ _) => "cache_create_with_config"
  | Config (Call_cache_get_or_create_with_config _ _) => "cache_get_or_create_with_config"
  end.

(** The [op_code] of the [Query] subclass the function declares. *)
Definition op_code_of (call : Call) : OpCode :=
  match call with
  | KV (Call_cache_put _ _ _ _) _ _ _ => OP_CACHE_PUT
  | KV (Call_cache_get _ _) _ _ _ => OP_CACHE_GET
  | KV (Call_cache_get_all _) _ _ _ => OP_CACHE_GET_ALL
  | KV (Call_cache_put_all _) _ _ _ => OP_CACHE_PUT_ALL
  | KV (Call_cache_contains_key _ _) _ _ _ => OP_CACHE_CONTAINS_KEY
  | KV (Call_cache_contains_keys _) _ _ _ => OP_CACHE_CONTAINS_KEYS
  | KV (Call_cache_get_and_put _ _ _ _) _ _ _ => OP_CACHE_GET_AND_PUT
  | KV (Call_cache_get_and_replace _ _ _ _) _ _ _ => OP_CACHE_GET_AND_REPLACE
  | KV (Call_cache_get_and_remove _ _) _ _ _ => OP_CACHE_GET_AND_REMOVE
  | KV (Call_cache_put_if_absent _ _ _ _) _ _ _ => OP_CACHE_PUT_IF_ABSENT
  | KV (Call_cache_get_and_put_if_absent _ _ _ _) _ _ _ => OP_CACHE_GET_AND_PUT_IF_ABSENT
  | KV (Call_cache_replace _ _ _ _) _ _ _ => OP_CACHE_REPLACE
  | KV (Call_cache_replace_if_equals _ _ _ _ _ _) _ _ _ => OP_CACHE_REPLACE_IF_EQUALS
  | KV Call_cache_clear _ _ _ => OP_CACHE_CLEAR
  | KV (Call_cache_clear_key _ _) _ _ _ => OP_CACHE_CLEAR_KEY
  | KV (Call_cache_clear_keys _) _ _ _ => OP_CACHE_CLEAR_KEYS
  | KV (Call_cache_remove_key _ _) _ _ _ => OP_CACHE_REMOVE_KEY
  | KV (Call_cache_remove_if_equals _ _ _ _) _ _ _ => OP_CACHE_REMOVE_IF_EQUALS
  | KV (Call_cache_remove_keys _) _ _ _ => OP_CACHE_REMOVE_KEYS
  | KV Call_cache_remove_all _ _ _ => OP_CACHE_REMOVE_ALL
  | KV (Call_cache_get_size _) _ _ _ => OP_CACHE_GET_SIZE
  | Config (Call_cache_get_configuration _ _ _) => OP_CACHE_GET_CONFIGURATION
  | Config (Call_cache_create _ _) => OP_CACHE_CREATE_WITH_NAME
  | Config (Call_cache_get_or_create _ _) => OP_CACHE_GET_OR_CREATE_WITH_NAME
  | Config (Call_cache_destroy _ _) => OP_CACHE_DESTROY
  | Config (Call_cache_get_names _) => OP_CACHE_GET_NAMES
  | Config (Call_cache_create_with_config _ _) => OP_CACHE_CREATE_WITH_CONFIGURATION
  | Config (Call_cache_get_or_create_with_config _ _) => OP_CACHE_GET_OR_CREATE_WITH_CONFIGURATION
  end.

(** The [query_id] argument of a call. *)
Definition query_id_of (call : Call) : option Z :=
  match call with
  | KV _ _ _ query_id => query_id
  | Config (Call_cache_get_configuration _ _ query_id) => query_id
  | Config (Call_cache_create _ query_id) => query_id
  | Config (Call_cache_get_or_create _ query_id) => query_id
  | Config (Call_cache_destroy _ query_id) => query_id
  | Config (Call_cache_get_names query_id) => query_id
  | Config (Call_cache_create_with_config _ query_id) => query_id
  | Config (Call_cache_get_or_create_with_config _ query_id) => query_id
  end.

(** What a call makes of a decoded response: the result as built from
    the response and, on status 0, the declared field as its value. *)
Definition result_of_response (response_struct : schema)
    (response : Response.t) : APIResult.t :=
  let result := APIResult_of_response response in
  if negb (APIResult.status result =? 0) then result
  else
    match response_struct with
    | [] => result
    | (name, _) :: _ =>
        match dict_lookup (Response.fields response) name with
        | Some v => APIResult.set_value result v
        | None => result
        end
    end.

(** Two calls one after the other on the same connection. *)
Definition run_two (call1 call2 : Call) : Api (APIResult.t * APIResult.t) :=
  result1 <- run call1 ;;
  result2 <- run call2 ;;
  ret (result1, result2).


(** The finishing step reads the field the response schema declares. *)
Definition finish_fits (f : Finish) (response_struct : schema) : Prop :=
  match response_struct with
  | [] => f = Plain \/ f = Whole
  | [(name, _)] => f = FieldOf name \/ f = DictFieldOf name
  | _ => False
  end.

(** Numbering starts after every name already in the dictionary. *)
Definition fresh_from {V} (i : nat) (d : dict V) : Prop :=
  forall j, (i <= j)%nat -> dict_lookup d (property_name j) = None.

(** ** Facts about the wire integers *)

Lemma get_put_int_raw (n : nat) (z : Z) (rest : list byte) :
  Wire.get_int n (Wire.put_int n z ++ rest)
  = Some (Wire.signed n (z mod 2 ^ (Z.of_nat n * 8)), rest).
Proof.
  unfold Wire.get_int, Wire.put_int.
  assert (Hlen : List.length (le_split n z) = n) by apply length_le_split.
  rewrite List.length_app, Hlen.
  replace (n <=? n + List.length rest)%nat with true
    by (symmetry; apply Nat.leb_le; lia).
  rewrite <- Hlen at 2 4.
  rewrite firstn_app, firstn_all, Nat.sub_diag, firstn_O, app_nil_r.
  rewrite skipn_app, skipn_all, Nat.sub_diag, skipn_O, app_nil_l.
  now rewrite le_combine_split.
Qed.

Lemma signed_of_fits (n : nat) (z : Z) :
  (0 < n)%nat -> Wire.fits n z = true ->
  Wire.signed n (z mod 2 ^ (Z.of_nat n * 8)) = z.
Proof.
  intros Hn Hfit. unfold Wire.fits in Hfit. unfold Wire.signed.
  apply andb_true_iff in Hfit as [Hlo Hhi].
  apply Z.leb_le in Hlo. apply Z.ltb_lt in Hhi.
  set (k := Z.of_nat n * 8) in *.
  assert (Hk : 0 < k) by (subst k; lia).
  assert (Hpow : 2 ^ k = 2 * 2 ^ (k - 1)).
  { rewrite <- Z.pow_succ_r by lia. f_equal. lia. }
  rewrite Z.add_mod_idemp_l by lia.
  rewrite Z.mod_small; lia.
Qed.

Lemma get_put_int (n : nat) (z : Z) (rest : list byte) :
  (0 < n)%nat -> Wire.fits n z = true ->
  Wire.get_int n (Wire.put_int n z ++ rest) = Some (z, rest).
Proof.
  intros Hn Hfit. rewrite get_put_int_raw. now rewrite signed_of_fits.
Qed.

(** ** Facts about the hash *)

Lemma int_overflow_shift (x c : Z) :
  utils.int_overflow (x + c * 4294967296) = utils.int_overflow x.
Proof.
  unfold utils.int_overflow.
  replace (x + c * 4294967296 + 2147483648)
    with (x + 2147483648 + c * 4294967296) by lia.
  now rewrite Z.mod_add by lia.
Qed.

Lemma hash_step_int_overflow (h u : Z) :
  utils.hash_step (utils.int_overflow h) u = utils.hash_step h u.
Proof.
  unfold utils.hash_step.
  set (q := (h + 2147483648) / 4294967296).
  assert (Hh : utils.int_overflow h = h - 4294967296 * q).
  { unfold utils.int_overflow, q. rewrite Z.mod_eq by lia. lia. }
  rewrite Hh.
  replace (31 * (h - 4294967296 * q) + u)
    with (31 * h + u + (- (31 * q)) * 4294967296) by lia.
  apply int_overflow_shift.
Qed.

Lemma fold_hash_poly (units : list Z) :
  forall h, fold_left utils.hash_step units (utils.int_overflow h)
            = utils.int_overflow (utils.poly31 h units).
Proof.
  induction units as [|u units IH]; intros h; cbn [fold_left utils.poly31].
  - reflexivity.
  - rewrite hash_step_int_overflow. unfold utils.hash_step at 2. apply IH.
Qed.

Lemma hash_units_poly (units : list Z) :
  utils.hash_units units = utils.int_overflow (utils.poly31 0 units).
Proof.
  unfold utils.hash_units. rewrite <- fold_hash_poly. reflexivity.
Qed.

Lemma int_overflow_range (x : Z) :
  - 2147483648 <= utils.int_overflow x < 2147483648.
Proof.
  unfold utils.int_overflow.
  pose proof (Z.mod_pos_bound (x + 2147483648) 4294967296 ltac:(lia)). lia.
Qed.

(** *** The code units of a text *)

Lemma lor_shiftl_add (h l k : Z) :
  0 <= k -> 0 <= l < 2 ^ k -> Z.lor (Z.shiftl h k) l = h * 2 ^ k + l.
Proof.
  intros Hk Hl. rewrite Z.shiftl_mul_pow2 by assumption.
  assert (Hland : Z.land (h * 2 ^ k) l = 0);
    [|now rewrite <- Z.lxor_lor, <- Z.add_nocarry_lxor by exact Hland].
  apply Z.bits_inj'. intros n Hn. rewrite Z.land_spec, Z.bits_0.
  destruct (Z.lt_ge_cases n k) as [Hlow|Hhigh].
  - now rewrite Z.mul_pow2_bits_low.
  - rewrite <- (Z.mod_small l (2 ^ k)) by assumption.
    rewrite Z.mod_pow2_bits_high by lia. apply andb_false_r.
Qed.

Lemma land_low_bits (x k : Z) :
  0 <= k -> Z.land x (2 ^ k - 1) = x mod 2 ^ k.
Proof.
  intros Hk. rewrite <- Z.land_ones by assumption.
  now rewrite Z.ones_equiv, <- Z.sub_1_r.
Qed.

Lemma code_points_1 b0 t :
  (b0 <? 128) = true ->
  utils.code_points (b0 :: t) = b0 :: utils.code_points t.
Proof. intros H. cbn [utils.code_points]. now rewrite H. Qed.

Lemma code_points_2 b0 b1 t :
  (b0 <? 128) = false -> (b0 <? 224) = true ->
  utils.code_points (b0 :: b1 :: t)
  = Z.lor (Z.shiftl (Z.land b0 31) 6) (Z.land b1 63) :: utils.code_points t.
Proof. intros H1 H2. cbn [utils.code_points]. now rewrite H1, H2. Qed.

Lemma code_points_3 b0 b1 b2 t :
  (b0 <? 128) = false -> (b0 <? 224) = false -> (b0 <? 240) = true ->
  utils.code_points (b0 :: b1 :: b2 :: t)
  = Z.lor (Z.shiftl (Z.land b0 15) 12)
      (Z.lor (Z.shiftl (Z.land b1 63) 6) (Z.land b2 63))
    :: utils.code_points t.
Proof. intros H1 H2 H3. cbn [utils.code_points]. now rewrite H1, H2, H3. Qed.

Lemma code_points_4 b0 b1 b2 b3 t :
  (b0 <? 128) = false -> (b0 <? 224) = false -> (b0 <? 240) = false ->
  utils.code_points (b0 :: b1 :: b2 :: b3 :: t)
  = Z.lor (Z.shiftl (Z.land b0 7) 18)
      (Z.lor (Z.shiftl (Z.land b1 63) 12)
         (Z.lor (Z.shiftl (Z.land b2 63) 6) (Z.land b3 63)))
    :: utils.code_points t.
Proof. intros H1 H2 H3. cbn [utils.code_points]. now rewrite H1, H2, H3. Qed.

(** Decoding the UTF-8 bytes of a code point gives the code point back. *)
Lemma code_points_utf8_bytes (cp : Z) (rest : list Z) :
  is_code_point cp ->
  utils.code_points (utf8_bytes cp ++ rest) = cp :: utils.code_points rest.
Proof.
  unfold is_code_point, utf8_bytes. intros Hcp.
  destruct (Z.ltb_spec cp 128) as [H1|H1];
    [|destruct (Z.ltb_spec cp 2048) as [H2|H2];
      [|destruct (Z.ltb_spec cp 65536) as [H3|H3]]];
    cbn [app].
  - rewrite code_points_1; [reflexivity|]. apply Z.ltb_lt. lia.
  - rewrite code_points_2;
      [| apply Z.ltb_ge; Z.div_mod_to_equations; lia
       | apply Z.ltb_lt; Z.div_mod_to_equations; lia].
    f_equal.
    change 31 with (2 ^ 5 - 1). change 63 with (2 ^ 6 - 1).
    rewrite !land_low_bits by lia.
    rewrite lor_shiftl_add by (try apply Z.mod_pos_bound; lia).
    change (2 ^ 5) with 32. change (2 ^ 6) with 64.
    Z.div_mod_to_equations. lia.
  - rewrite code_points_3;
      [| apply Z.ltb_ge; Z.div_mod_to_equations; lia
       | apply Z.ltb_ge; Z.div_mod_to_equations; lia
       | apply Z.ltb_lt; Z.div_mod_to_equations; lia].
    f_equal.
    change 15 with (2 ^ 4 - 1). change 63 with (2 ^ 6 - 1).
    rewrite !land_low_bits by lia.
    rewrite (lor_shiftl_add _ _ 6) by (try apply Z.mod_pos_bound; lia).
    rewrite (lor_shiftl_add _ _ 12)
      by (change (2 ^ 6) with 64; change (2 ^ 12) with 4096;
          try (Z.div_mod_to_equations; lia); lia).
    change (2 ^ 4) with 16. change (2 ^ 6) with 64. change (2 ^ 12) with 4096.
    Z.div_mod_to_equations. lia.
  - rewrite code_points_4;
      [| apply Z.ltb_ge; Z.div_mod_to_equations; lia
       | apply Z.ltb_ge; Z.div_mod_to_equations; lia
       | apply Z.ltb_ge; Z.div_mod_to_equations; lia].
    f_equal.
    change 7 with (2 ^ 3 - 1). change 63 with (2 ^ 6 - 1).
    rewrite !land_low_bits by lia.
    rewrite (lor_shiftl_add _ _ 6) by (try apply Z.mod_pos_bound; lia).
    rewrite (lor_shiftl_add _ _ 12)
      by (change (2 ^ 6) with 64; change (2 ^ 12) with 4096;
          try (Z.div_mod_to_equations; lia); lia).
    rewrite (lor_shiftl_add _ _ 18)
      by (change (2 ^ 6) with 64; change (2 ^ 12) with 4096;
          change (2 ^ 18) with 262144;
          try (Z.div_mod_to_equations; lia); lia).
    change (2 ^ 3) with 8. change (2 ^ 6) with 64. change (2 ^ 12) with 4096.
    change (2 ^ 18) with 262144.
    Z.div_mod_to_equations. lia.
Qed.

Lemma utf8_bytes_are_bytes (cp : Z) :
  is_code_point cp -> Forall (fun b => 0 <= b < 256) (utf8_bytes cp).
Proof.
  unfold is_code_point, utf8_bytes. intros Hcp.
  destruct (Z.ltb_spec cp 128); [|destruct (Z.ltb_spec cp 2048);
    [|destruct (Z.ltb_spec cp 65536)]];
    repeat constructor; Z.div_mod_to_equations; lia.
Qed.

Lemma unsigned_of_Z_bytes (bs : list Z) :
  Forall (fun b => 0 <= b < 256) bs ->
  map byte.unsigned (map byte.of_Z bs) = bs.
Proof.
  induction 1 as [|b bs Hb _ IH]; cbn [map]; [reflexivity|].
  rewrite IH, byte.unsigned_of_Z. unfold byte.wrap.
  rewrite Z.mod_small by (change (2 ^ 8) with 256; lia). reflexivity.
Qed.

Lemma code_points_utf8_text (cps : list Z) :
  Forall is_code_point cps ->
  utils.code_points
    (map byte.unsigned (list_byte_of_string (utf8_text cps)))
  = cps.
Proof.
  intros Hcps. unfold utf8_text.
  rewrite list_byte_of_string_of_list_byte, unsigned_of_Z_bytes.
  - induction Hcps as [|cp cps Hcp _ IH]; cbn [flat_map]; [reflexivity|].
    now rewrite code_points_utf8_bytes, IH.
  - induction Hcps as [|cp cps Hcp _ IH]; cbn [flat_map]; [constructor|].
    apply Forall_app. split; [now apply utf8_bytes_are_bytes|exact IH].
Qed.

Lemma utf16_of_code_point_arith (cp : Z) :
  utils.utf16_of_code_point cp
  = if cp <? 65536 then [cp]
    else [55296 + (cp - 65536) / 1024; 56320 + (cp - 65536) mod 1024].
Proof.
  unfold utils.utf16_of_code_point. destruct (cp <? 65536); [reflexivity|].
  rewrite Z.shiftr_div_pow2 by lia.
  change 1023 with (2 ^ 10 - 1). rewrite land_low_bits by lia. reflexivity.
Qed.

(** The hash of a text, from its code points. *)
Lemma hashcode_of_code_points (cps : list Z) :
  Forall is_code_point cps ->
  utils.hashcode (utf8_text cps)
  = utils.int_overflow
      (utils.poly31 0
         (flat_map
            (fun cp =>
               if cp <? 65536 then [cp]
               else [55296 + (cp - 65536) / 1024;
                     56320 + (cp - 65536) mod 1024])
            cps)).
Proof.
  intros Hcps. unfold utils.hashcode. rewrite hash_units_poly.
  unfold utils.utf16_units. rewrite code_points_utf8_text by assumption.
  do 2 f_equal. clear Hcps.
  induction cps as [|cp cps IH]; cbn [flat_map]; [reflexivity|].
  now rewrite IH, utf16_of_code_point_arith.
Qed.

(** A generated query id is never zero, whatever the random source
    holds. *)
Lemma randint_long_nonzero w :
  exists z w1, randint_long w = (Ok z, w1) /\ z <> 0.
Proof.
  unfold randint_long, nonzero_long.
  destruct (entropy w) as [|z rest].
  - exists 1, w. split; [reflexivity|discriminate].
  - destruct (Z.eqb_spec (Wire.signed 8 z) 0) as [Hz|Hz].
    + eexists _, _. split; [reflexivity|discriminate].
    + eexists _, _. split; [reflexivity|exact Hz].
Qed.

(** With a query id given, the frame of a request does not depend on the
    state of the connection or of the random source. *)
Lemma from_python_given_id q values w :
  Query.query_id q <> None ->
  fst (from_python q values w)
  = match Query.query_id q with
    | Some qid =>
        encode_request (Query.op_code q) qid (Query.following q) values
    | None => Raise EncodeError
    end.
Proof.
  unfold from_python, bind, lift, ret.
  destruct (Query.query_id q); [reflexivity|congruence].
Qed.


(** ** Facts about the frames *)

Lemma firstn_put_int (n : nat) (z : Z) (rest : list byte) :
  firstn n (Wire.put_int n z ++ rest) = Wire.put_int n z.
Proof.
  unfold Wire.put_int.
  assert (Hlen : List.length (le_split n z) = n) by apply length_le_split.
  rewrite <- Hlen at 1.
  now rewrite firstn_app, firstn_all, Nat.sub_diag, firstn_O, app_nil_r.
Qed.

Lemma encode_request_frame op qid following values header request :
  encode_request op qid following values = Ok (header, request) ->
  exists body,
    encode_body following values = Ok body
    /\ Wire.fits 8 qid = true
    /\ Header.query_id header = qid
    /\ request = Wire.put_int 4 (Z.of_nat (List.length body) + 10)
                 ++ Wire.put_int 2 (op_number op)
                 ++ Wire.put_int 8 qid ++ body.
Proof.
  unfold encode_request, rbind.
  destruct (encode_body following values) as [body|e]; [|discriminate].
  destruct (Wire.fits 2 (op_number op)); cbn [andb]; [|discriminate].
  destruct (Wire.fits 8 qid) eqn:Hq; cbn [andb]; [|discriminate].
  destruct (Wire.fits 4 _); [|discriminate].
  intros [= <- <-]. exists body. repeat split; reflexivity.
Qed.

Lemma server_reply_echo request qid front body status payload :
  List.length front = 6%nat ->
  request = front ++ Wire.put_int 8 qid ++ body ->
  server_reply request status payload
  = Wire.put_int 4 (12 + Z.of_nat (List.length payload))
    ++ Wire.put_int 8 qid ++ Wire.put_int 4 status ++ payload.
Proof.
  intros Hfront ->. unfold server_reply.
  rewrite skipn_app, skipn_all2, Hfront, Nat.sub_diag, skipn_O by lia.
  cbn [app]. now rewrite firstn_put_int.
Qed.

Lemma decode_header_reply qid status payload :
  Wire.fits 8 qid = true ->
  exists length st,
    decode_header
      (Wire.put_int 4 (12 + Z.of_nat (List.length payload))
       ++ Wire.put_int 8 qid ++ Wire.put_int 4 status ++ payload)
    = Ok (length, qid, st, payload).
Proof.
  intros Hq. unfold decode_header.
  rewrite get_put_int_raw. cbn [of_option rbind].
  rewrite get_put_int by (assumption || lia). cbn [of_option rbind].
  rewrite get_put_int_raw. cbn [of_option rbind].
  eexists _, _. reflexivity.
Qed.

(** C7. A request encoded with query id [qid], answered by the peer
    with any status and payload, decodes to a response whose echoed query
    id is [qid]: the header of the reply always decodes and carries
    [qid], and so does every response decoded from the reply, whatever
    the response schema. *)
Theorem query_id_round_trip op qid following values header request
    status payload :
  encode_request op qid following values = Ok (header, request) ->
  Header.query_id header = qid
  /\ (exists length st,
         decode_header (server_reply request status payload)
         = Ok (length, qid, st, payload))
  /\ (forall response_schema response,
         decode_response response_schema (server_reply request status payload)
         = Ok response ->
         Response.query_id response = qid).
Proof.
  intros Henc.
  destruct (encode_request_frame _ _ _ _ _ _ Henc)
    as (body & _ & Hq & Hh & Hreq).
  assert (Hreply :
    server_reply request status payload
    = Wire.put_int 4 (12 + Z.of_nat (List.length payload))
      ++ Wire.put_int 8 qid ++ Wire.put_int 4 status ++ payload).
  { apply server_reply_echo
      with (front := Wire.put_int 4 (Z.of_nat (List.length body) + 10)
                     ++ Wire.put_int 2 (op_number op)) (body := body).
    - reflexivity.
    - rewrite Hreq, <- app_assoc. reflexivity. }
  destruct (decode_header_reply qid status payload Hq) as (len & st & Hdec).
  split; [exact Hh|]. split.
  - exists len, st. now rewrite Hreply.
  - intros rs response. rewrite Hreply. unfold decode_response.
    rewrite Hdec. cbn [rbind].
    destruct (st =? 0).
    + destruct (decode_fields rs payload) as [[fs rest]|e]; cbn [rbind];
        [|discriminate].
      destruct rest; [|discriminate]. now intros [= <-].
    + destruct (Wire.get_int 4 payload) as [[n buf4]|]; cbn [of_option rbind];
        [|discriminate].
      destruct (_ && _); [|discriminate]. now intros [= <-].
Qed.

(** ** Facts about dictionaries and property names *)

Lemma dict_set_fresh {V} (d : dict V) (k : string) (v : V) :
  dict_lookup d k = None -> dict_set d k v = d ++ [(k, v)].
Proof.
  induction d as [|[k' v'] d IH]; cbn [dict_lookup dict_set app]; intros H.
  - reflexivity.
  - destruct (String.eqb k' k); [discriminate|]. now rewrite IH.
Qed.

Lemma dict_lookup_app {V} (d1 d2 : dict V) (k : string) :
  dict_lookup (d1 ++ d2) k
  = match dict_lookup d1 k with
    | Some v => Some v
    | None => dict_lookup d2 k
    end.
Proof.
  induction d1 as [|[k' v'] d1 IH]; cbn [dict_lookup app].
  - reflexivity.
  - destruct (String.eqb k' k); [reflexivity|apply IH].
Qed.

Lemma property_name_inj (i j : nat) :
  property_name i = property_name j -> i = j.
Proof.
  unfold property_name. cbn [append]. intros H.
  injection H as H.
  apply (f_equal NilEmpty.uint_of_string) in H.
  rewrite !NilEmpty.usu in H. injection H as H.
  now apply Unsigned.to_uint_inj.
Qed.

Lemma property_name_not_param_count (i : nat) :
  property_name i <> "param_count".
Proof. unfold property_name. cbn [append]. discriminate. Qed.

Lemma eqb_property_name (i j : nat) :
  String.eqb (property_name i) (property_name j) = Nat.eqb i j.
Proof.
  destruct (Nat.eqb_spec i j) as [->|Hne].
  - apply String.eqb_refl.
  - apply String.eqb_neq. intros H. now apply property_name_inj in H.
Qed.

Lemma lookup_numbered_values_param_count (props : PropertyMap) :
  forall i, dict_lookup (numbered_values i props) "param_count" = None.
Proof.
  induction props as [|[code v] ps IH]; intros i;
    cbn [numbered_values dict_lookup]; [reflexivity|].
  destruct (String.eqb_spec (property_name i) "param_count") as [H|_].
  - now apply property_name_not_param_count in H.
  - apply IH.
Qed.

Lemma fresh_from_snoc {V} (i : nat) (d : dict V) (v : V) :
  fresh_from i d -> fresh_from (S i) (d ++ [(property_name i, v)]).
Proof.
  intros Hd j Hj. rewrite dict_lookup_app, Hd by lia.
  cbn [dict_lookup]. rewrite eqb_property_name.
  destruct (Nat.eqb_spec i j); [lia|reflexivity].
Qed.

(** ** The schema builder *)

Lemma collect_properties_numbered (props : PropertyMap) :
  forall types i prop_types prop_values,
    resolves props types ->
    fresh_from i prop_types -> fresh_from i prop_values ->
    collect_properties i props prop_types prop_values
    = Ok (prop_types ++ numbered_types i types,
          prop_values ++ numbered_values i props).
Proof.
  induction props as [|[code v] ps IH]; intros types i pt pv Hres Hpt Hpv;
    inversion Hres as [|p t ps' ts Hcode Hrest]; subst;
    cbn [collect_properties numbered_types numbered_values].
  - now rewrite !app_nil_r.
  - cbn [fst] in Hcode. unfold prop_map. rewrite Hcode. cbn [of_option rbind].
    rewrite !dict_set_fresh by (apply Hpt || apply Hpv; lia).
    rewrite (IH ts (S i)); [| assumption | now apply fresh_from_snoc ..].
    now rewrite <- !app_assoc.
Qed.

Lemma collect_properties_unknown (props : PropertyMap) :
  forall i prop_types prop_values,
    Exists (fun p => prop_table (fst p) = None) props ->
    exists code,
      prop_table code = None
      /\ In code (map fst props)
      /\ collect_properties i props prop_types prop_values
         = Raise (UnknownPropertyError code).
Proof.
  induction props as [|[code v] ps IH]; intros i pt pv Hex.
  - inversion Hex.
  - cbn [collect_properties]. unfold prop_map.
    destruct (prop_table code) as [t|] eqn:Hcode; cbn [of_option rbind].
    + inversion Hex as [? ? Hhere|? ? Hlater]; subst.
      * cbn [fst] in Hhere. congruence.
      * destruct (IH (S i) (dict_set pt (property_name i) t)
                    (dict_set pv (property_name i) v) Hlater)
          as (c & Hc & Hin & Hrun).
        exists c. repeat split; [assumption|now right|assumption].
    + exists code. repeat split; [assumption|now left].
Qed.

Lemma collect_properties_resolves (props : PropertyMap) :
  forall i prop_types prop_values out,
    collect_properties i props prop_types prop_values = Ok out ->
    exists types, resolves props types.
Proof.
  induction props as [|[code v] ps IH]; intros i pt pv out Hrun.
  - exists []. constructor.
  - cbn [collect_properties] in Hrun. unfold prop_map in Hrun.
    destruct (prop_table code) as [t|] eqn:Hcode; cbn [of_option rbind] in Hrun;
      [|discriminate].
    destruct (IH _ _ _ _ Hrun) as (ts & Hts).
    exists (t :: ts). now constructor.
Qed.

Lemma bound_numbered_fields (props : PropertyMap) :
  forall types i prefix tail,
    List.length props = List.length types ->
    fresh_from i prefix ->
    bound_fields (numbered_types i types)
      (prefix ++ numbered_values i props ++ tail)
    = Ok (numbered_fields i props types).
Proof.
  induction props as [|[code v] ps IH]; intros [|t ts] i prefix tail Hlen Hfresh;
    try discriminate; cbn [numbered_types numbered_values numbered_fields
                             bound_fields]; [reflexivity|].
  unfold dict_get. rewrite dict_lookup_app, Hfresh by lia.
  cbn [app dict_lookup]. rewrite String.eqb_refl. cbn [of_option rbind].
  change (prefix ++ (property_name i, v) :: numbered_values (S i) ps ++ tail)
    with (prefix ++ [(property_name i, v)] ++ numbered_values (S i) ps ++ tail).
  rewrite app_assoc.
  rewrite (IH ts (S i)); [reflexivity | | now apply fresh_from_snoc].
  cbn [List.length] in Hlen. lia.
Qed.

Lemma resolves_length props types :
  resolves props types -> List.length props = List.length types.
Proof. apply Forall2_length. Qed.

(** The builder on a property map whose codes all resolve: the schema,
    the values and the fields they bind. *)
Lemma build_config_schema_resolved (props : PropertyMap) types :
  resolves props types ->
  let following := ("param_count", datatypes.Short) :: numbered_types 0 types in
  let values :=
    numbered_values 0 props
    ++ [("param_count", PInt (Z.of_nat (List.length props)))] in
  build_config_schema props = Ok (following, values)
  /\ bound_fields following values
     = Ok (("param_count", datatypes.Short,
            PInt (Z.of_nat (List.length props)))
           :: numbered_fields 0 props types).
Proof.
  intros Hres following values. subst following values. split.
  - unfold build_config_schema.
    rewrite (collect_properties_numbered props types 0 [] [] Hres)
      by (intros j _; reflexivity).
    cbn [app rbind].
    now rewrite dict_set_fresh by apply lookup_numbered_values_param_count.
  - cbn [bound_fields]. unfold dict_get.
    rewrite dict_lookup_app, lookup_numbered_values_param_count.
    cbn [dict_lookup]. rewrite String.eqb_refl. cbn [of_option rbind].
    pose proof (bound_numbered_fields props types 0 []
                  [("param_count", PInt (Z.of_nat (List.length props)))]
                  (resolves_length _ _ Hres)) as Hb.
    cbn [app] in Hb. rewrite Hb by (intros j _; reflexivity).
    reflexivity.
Qed.

Lemma numbered_types_length (types : list datatypes.t) :
  forall i, List.length (numbered_types i types) = List.length types.
Proof.
  induction types as [|t ts IH]; intros i; cbn [numbered_types List.length];
    [reflexivity|now rewrite IH].
Qed.

Lemma numbered_fields_shape (props : PropertyMap) :
  forall types i,
    List.length props = List.length types ->
    map (fun f : Field => snd f) (numbered_fields i props types) = map snd props
    /\ map (fun f : Field => snd (fst f)) (numbered_fields i props types) = types
    /\ map (fun f : Field => fst (fst f)) (numbered_fields i props types)
       = map property_name (seq i (List.length props)).
Proof.
  induction props as [|[code v] ps IH]; intros [|t ts] i Hlen; try discriminate;
    cbn [numbered_fields map seq List.length fst snd].
  - repeat split.
  - cbn [List.length] in Hlen.
    destruct (IH ts (S i) ltac:(lia)) as (Hv & Ht & Hn).
    rewrite Hv, Ht, Hn. repeat split.
Qed.

Lemma build_config_schema_inv (props : PropertyMap) following values :
  build_config_schema props = Ok (following, values) ->
  exists types, resolves props types.
Proof.
  unfold build_config_schema.
  destruct (collect_properties 0 props [] []) as [out|e] eqn:Hrun;
    cbn [rbind]; [|discriminate].
  intros _. eapply collect_properties_resolves. exact Hrun.
Qed.

(** The two functions run the same loop. *)
Lemma collect_properties_agree (items : PropertyMap) :
  forall i prop_types prop_values,
    collect_properties' i items prop_types prop_values
    = collect_properties i items prop_types prop_values.
Proof.
  induction items as [|[code v] rest IH]; intros i pt pv;
    cbn [collect_properties collect_properties']; [reflexivity|].
  destruct (prop_map code); cbn [rbind]; [apply IH|reflexivity].
Qed.

Lemma get_or_create_request_builds (props : PropertyMap) (query_id : option Z) :
  cache_get_or_create_with_config_request props query_id
  = rbind (build_config_schema props) (fun '(following, prop_values) =>
      Ok (Query.make OP_CACHE_GET_OR_CREATE_WITH_CONFIGURATION following query_id,
          prop_values)).
Proof.
  unfold cache_get_or_create_with_config_request, build_config_schema.
  rewrite collect_properties_agree.
  destruct (collect_properties 0 props [] []) as [[pt pv]|e]; reflexivity.
Qed.

(** ** The configuration requests *)

(** C2. For a property map whose codes all resolve in the table, the
    builder lists the property fields in the order the properties were
    supplied, whatever their codes: after the parameter count, the values
    the fields carry are the supplied values in supply order, their types
    are the table's types in the same order, and their names count up from
    [property_0].  Both configuration requests carry exactly this schema
    and these values. *)
Theorem config_schema_in_supply_order (props : PropertyMap)
    (types : list datatypes.t) :
  resolves props types ->
  exists following values fields,
    build_config_schema props = Ok (following, values)
    /\ (forall query_id,
           cache_create_with_config_request props query_id
           = Ok (Query.make OP_CACHE_CREATE_WITH_CONFIGURATION following query_id,
                 values)
           /\ cache_get_or_create_with_config_request props query_id
              = Ok (Query.make OP_CACHE_GET_OR_CREATE_WITH_CONFIGURATION
                      following query_id,
                    values))
    /\ bound_fields following values
       = Ok (("param_count", datatypes.Short,
              PInt (Z.of_nat (List.length props))) :: fields)
    /\ map (fun f : Field => snd f) fields = map snd props
    /\ map (fun f : Field => snd (fst f)) fields = types
    /\ map (fun f : Field => fst (fst f)) fields
       = map property_name (seq 0 (List.length props)).
Proof.
  intros Hres.
  destruct (build_config_schema_resolved props types Hres) as [Hbuild Hbound].
  destruct (numbered_fields_shape props types 0 (resolves_length _ _ Hres))
    as (Hv & Ht & Hn).
  eexists _, _, _. split; [exact Hbuild|]. split.
  - intros query_id.
    rewrite get_or_create_request_builds.
    unfold cache_create_with_config_request.
    rewrite Hbuild. split; reflexivity.
  - split; [exact Hbound|]. repeat split; assumption.
Qed.

(** C4. The two configuration functions build the same request but for
    the operation code: for every property map and query id either both
    fail with the same error, or both succeed with the same schema, the
    same values and the same query id, the one under
    OP_CACHE_CREATE_WITH_CONFIGURATION and the other under
    OP_CACHE_GET_OR_CREATE_WITH_CONFIGURATION; the frames encoded from them
    agree on every byte outside the two bytes of the operation code. *)
Theorem config_requests_differ_in_op_code_only (props : PropertyMap)
    (query_id : option Z) :
  match cache_create_with_config_request props query_id,
        cache_get_or_create_with_config_request props query_id with
  | Ok (q1, values1), Ok (q2, values2) =>
      Query.op_code q1 = OP_CACHE_CREATE_WITH_CONFIGURATION
      /\ Query.op_code q2 = OP_CACHE_GET_OR_CREATE_WITH_CONFIGURATION
      /\ Query.following q1 = Query.following q2
      /\ Query.query_id q1 = Query.query_id q2
      /\ values1 = values2
      /\ q2 = Query.with_op_code OP_CACHE_GET_OR_CREATE_WITH_CONFIGURATION q1
      /\ (forall qid h1 b1 h2 b2,
             encode_request (Query.op_code q1) qid (Query.following q1) values1
             = Ok (h1, b1) ->
             encode_request (Query.op_code q2) qid (Query.following q2) values2
             = Ok (h2, b2) ->
             firstn 4 b1 = firstn 4 b2 /\ skipn 6 b1 = skipn 6 b2)
  | Raise e1, Raise e2 => e1 = e2
  | _, _ => False
  end.
Proof.
  rewrite get_or_create_request_builds.
  unfold cache_create_with_config_request.
  destruct (build_config_schema props) as [[following values]|e]; cbn [rbind];
    [|reflexivity].
  cbn [Query.op_code Query.following Query.query_id].
  repeat (split; [reflexivity|]).
  intros qid h1 b1 h2 b2 H1 H2.
  destruct (encode_request_frame _ _ _ _ _ _ H1) as (body1 & Hb1 & _ & _ & ->).
  destruct (encode_request_frame _ _ _ _ _ _ H2) as (body2 & Hb2 & _ & _ & ->).
  rewrite Hb1 in Hb2. injection Hb2 as <-.
  split; reflexivity.
Qed.

(** C6. Whenever the builder produces a schema, its first field is the
    parameter count, of the fixed-width type Short and bound to the number
    of entries of the property map, and one field per property follows. *)
Theorem config_schema_starts_with_param_count (props : PropertyMap)
    following values :
  build_config_schema props = Ok (following, values) ->
  exists property_schema fields,
    following = ("param_count", datatypes.Short) :: property_schema
    /\ List.length property_schema = List.length props
    /\ dict_get values "param_count" = Ok (PInt (Z.of_nat (List.length props)))
    /\ bound_fields following values
       = Ok (("param_count", datatypes.Short,
              PInt (Z.of_nat (List.length props))) :: fields)
    /\ List.length fields = List.length props.
Proof.
  intros Hbuild.
  destruct (build_config_schema_inv _ _ _ Hbuild) as (types & Hres).
  destruct (build_config_schema_resolved props types Hres) as [Hb Hbound].
  rewrite Hb in Hbuild. injection Hbuild as <- <-.
  pose proof (resolves_length _ _ Hres) as Hlen.
  exists (numbered_types 0 types), (numbered_fields 0 props types).
  split; [reflexivity|]. split; [now rewrite numbered_types_length|].
  split.
  { unfold dict_get.
    rewrite dict_lookup_app, lookup_numbered_values_param_count.
    cbn [dict_lookup]. now rewrite String.eqb_refl. }
  split; [exact Hbound|].
  destruct (numbered_fields_shape props types 0 Hlen) as (Hv & _ & _).
  apply (f_equal (@List.length _)) in Hv. now rewrite !length_map in Hv.
Qed.

(** C8. A property map that holds a code with no entry in the table makes
    the builder fail with an UnknownPropertyError for such a code of the
    map, and no schema is produced: both configuration functions raise
    that error and leave the connection untouched. *)
Theorem unknown_property_fails (props : PropertyMap) :
  Exists (fun p => prop_table (fst p) = None) props ->
  exists code,
    prop_table code = None
    /\ In code (map fst props)
    /\ build_config_schema props = Raise (UnknownPropertyError code)
    /\ forall query_id w,
         cache_create_with_config props query_id w
         = (Raise (UnknownPropertyError code), w)
         /\ cache_get_or_create_with_config props query_id w
            = (Raise (UnknownPropertyError code), w).
Proof.
  intros Hex.
  destruct (collect_properties_unknown props 0 [] [] Hex)
    as (code & Hcode & Hin & Hrun).
  exists code.
  assert (Hbuild : build_config_schema props = Raise (UnknownPropertyError code)).
  { unfold build_config_schema. now rewrite Hrun. }
  repeat (split; [assumption|]).
  intros query_id w.
  unfold cache_create_with_config, cache_get_or_create_with_config, bind, lift.
  rewrite get_or_create_request_builds.
  unfold cache_create_with_config_request.
  rewrite Hbuild. split; reflexivity.
Qed.

(** ** Every call is one exchange *)

Lemma run_is_exchange (call : Call) :
  forall w,
    run call w
    = match request_of call with
      | Ok request => exchange request (response_schema call) (finish_of call) w
      | Raise e => (Raise e, w)
      end.
Proof.
  intros w. destruct call as [op cache binary query_id|c].
  - destruct op; reflexivity.
  - destruct c; try reflexivity;
      cbn [run config_call request_of];
      unfold cache_create_with_config, cache_get_or_create_with_config,
        bind, lift;
      match goal with
      | |- context [match ?r with Ok _ => _ | Raise _ => _ end] =>
          destruct r as [[q values]|e]; reflexivity
      end.
Qed.

Lemma from_python_world q values w out w1 :
  from_python q values w = (out, w1) ->
  sent w1 = sent w /\ inbox w1 = inbox w.
Proof.
  unfold from_python, bind, lift, ret, randint_long.
  destruct (Query.query_id q); [now intros [= _ <-]|].
  destruct (entropy w); now intros [= _ <-].
Qed.

Lemma decode_fields_names (following : schema) :
  forall buf fs rest,
    decode_fields following buf = Ok (fs, rest) ->
    map fst fs = map fst following.
Proof.
  induction following as [|[name t] following IH]; intros buf fs rest;
    cbn [decode_fields].
  - now intros [= <- _].
  - destruct (parse_value t buf) as [[v buf']|]; cbn [of_option rbind];
      [|discriminate].
    destruct (decode_fields following buf') as [[fs' buf'']|e] eqn:Hrest;
      cbn [rbind]; [|discriminate].
    intros [= <- _]. cbn [map fst]. f_equal. eapply IH. exact Hrest.
Qed.

(** A decoded response holds either the schema fields or an error text. *)
Lemma decode_response_shape following buf response :
  decode_response following buf = Ok response ->
  (Response.status_code response = 0 ->
     Response.error_message response = None
     /\ map fst (Response.fields response) = map fst following)
  /\ (Response.status_code response <> 0 ->
        Response.fields response = []
        /\ exists text, Response.error_message response = Some text).
Proof.
  unfold decode_response.
  destruct (decode_header buf) as [[[[len qid] status] buf3]|e]; cbn [rbind];
    [|discriminate].
  destruct (Z.eqb_spec status 0) as [->|Hne].
  - destruct (decode_fields following buf3) as [[fs rest]|e] eqn:Hfs;
      cbn [rbind]; [|discriminate].
    destruct rest; [|discriminate]. intros [= <-].
    cbn [Response.status_code Response.error_message Response.fields].
    split; [|congruence]. intros _. split; [reflexivity|].
    eapply decode_fields_names. exact Hfs.
  - destruct (Wire.get_int 4 buf3) as [[n buf4]|]; cbn [of_option rbind];
      [|discriminate].
    destruct (_ && _); [|discriminate]. intros [= <-].
    cbn [Response.status_code Response.error_message Response.fields].
    split; [congruence|]. intros _. split; [reflexivity|]. eexists. reflexivity.
Qed.

Lemma exchange_inv request response_struct f w result w' :
  exchange request response_struct f w = (Ok result, w') ->
  exists header buffer w1 frame rest response,
    from_python (fst request) (snd request) w = (Ok (header, buffer), w1)
    /\ inbox w = frame :: rest
    /\ decode_response response_struct frame = Ok response
    /\ finish f response_struct response
         (mkWorld (sent w ++ [buffer]) rest (entropy w1))
       = (Ok result, w').
Proof.
  unfold exchange, bind at 1.
  destruct (from_python (fst request) (snd request) w) as [[[header buffer]|e] w1]
    eqn:Hfrom; [|discriminate].
  destruct (from_python_world _ _ _ _ _ Hfrom) as [Hsent Hinbox].
  unfold bind at 1, send. unfold bind at 1, parse, bind at 1, receive, lift.
  cbn [inbox sent entropy]. rewrite Hsent, Hinbox.
  destruct (inbox w) as [|frame rest]; [discriminate|].
  destruct (decode_response response_struct frame) as [response|e] eqn:Hdec;
    [|discriminate].
  intros Hfin. exists header, buffer, w1, frame, rest, response.
  repeat split; assumption.
Qed.

(** Reading one declared field back out of [to_python]. *)
Lemma to_python_single name (t : datatypes.t) response v :
  dict_lookup (Response.fields response) name = Some v ->
  to_python [(name, t)] response = Ok (PDict [(PStr name, v)]).
Proof.
  intros Hv. unfold to_python, dict_get. rewrite Hv. reflexivity.
Qed.

Lemma single_field_present name (t : datatypes.t) (fs : dict PyValue) :
  map fst fs = map fst [(name, t)] ->
  exists v, fs = [(name, v)] /\ dict_lookup fs name = Some v.
Proof.
  destruct fs as [|[k v] [|? ?]]; try discriminate.
  cbn [map fst]. intros [= ->]. exists v. split; [reflexivity|].
  cbn [dict_lookup]. now rewrite String.eqb_refl.
Qed.

(** The finishing step obeys the status discipline when it reads the
    field the response schema declares. *)
Lemma finish_discipline f response_struct frame response w result w' :
  finish_fits f response_struct ->
  decode_response response_struct frame = Ok response ->
  finish f response_struct response w = (Ok result, w') ->
  APIResult.status result = Response.status_code response
  /\ APIResult.query_id result = Response.query_id response
  /\ (APIResult.status result <> 0 ->
        APIResult.value result = PNone
        /\ Response.fields response = []
        /\ Response.error_message response = Some (APIResult.message result))
  /\ (APIResult.status result = 0 ->
        APIResult.message result = ""
        /\ Response.error_message response = None
        /\ map fst (Response.fields response) = map fst response_struct
        /\ match response_struct with
           | [] => APIResult.value result = PNone
           | (name, _) :: _ =>
               dict_lookup (Response.fields response) name
               = Some (APIResult.value result)
           end).
Proof.
  intros Hfits Hdec Hfin.
  destruct (decode_response_shape _ _ _ Hdec) as [Hzero Hnonzero].
  assert (Hbase :
    forall r, r = APIResult_of_response response ->
      (Response.status_code response <> 0 ->
         APIResult.value r = PNone
         /\ Response.fields response = []
         /\ Response.error_message response = Some (APIResult.message r))
      /\ (Response.status_code response = 0 ->
            APIResult.message r = "" /\ APIResult.value r = PNone)).
  { intros r ->. unfold APIResult_of_response.
    cbn [APIResult.value APIResult.message]. split.
    - intros Hne. destruct (Hnonzero Hne) as (Hfs & text & Htext).
      rewrite Htext. repeat split; assumption.
    - intros Hz. destruct (Hzero Hz) as (Hnone & _). now rewrite Hnone. }
  destruct (Z.eqb_spec (Response.status_code response) 0) as [Hz|Hne].
  - (* success *)
    destruct (Hzero Hz) as (Hnone & Hnames).
    assert (Hclose :
      forall v,
        match response_struct with
        | [] => v = PNone
        | (name, _) :: _ => dict_lookup (Response.fields response) name = Some v
        end ->
        result = APIResult.set_value (APIResult_of_response response) v ->
        APIResult.status result = Response.status_code response
        /\ APIResult.query_id result = Response.query_id response
        /\ (APIResult.status result <> 0 ->
              APIResult.value result = PNone
              /\ Response.fields response = []
              /\ Response.error_message response
                 = Some (APIResult.message result))
        /\ (APIResult.status result = 0 ->
              APIResult.message result = ""
              /\ Response.error_message response = None
              /\ map fst (Response.fields response) = map fst response_struct
              /\ match response_struct with
                 | [] => APIResult.value result = PNone
                 | (name, _) :: _ =>
                     dict_lookup (Response.fields response) name
                     = Some (APIResult.value result)
                 end)).
    { intros v Hv ->.
      cbn [APIResult_of_response APIResult.status APIResult.query_id
           APIResult.value APIResult.message APIResult.set_value].
      split; [reflexivity|]. split; [reflexivity|].
      split; [intros Habs; contradiction|]. intros _.
      rewrite Hnone. repeat split; assumption. }
    unfold finish in Hfin.
    cbn [APIResult_of_response APIResult.status] in Hfin.
    rewrite Hz in Hfin. cbn [Z.eqb negb] in Hfin.
    destruct response_struct as [|[name t] [|? ?]]; cbn [finish_fits] in Hfits;
      try contradiction.
    + apply (Hclose PNone eq_refl).
      destruct Hfits as [-> | ->]; unfold bind, lift, ret, to_python in Hfin;
        cbn [rbind] in Hfin; now injection Hfin as <- _.
    + destruct (single_field_present name t _ Hnames) as (v & Hfs & Hv).
      pose proof (to_python_single name t response v Hv) as Hpy.
      apply (Hclose v Hv).
      destruct Hfits as [-> | ->]; unfold bind, lift, ret in Hfin;
        rewrite Hpy in Hfin; cbn [rbind py_dict py_getitem] in Hfin;
        rewrite String.eqb_refl in Hfin; now injection Hfin as <- _.
  - (* failure *)
    destruct (Hbase _ eq_refl) as [Hbad _].
    assert (Hret : result = APIResult_of_response response).
    { unfold finish in Hfin.
      cbn [APIResult_of_response APIResult.status] in Hfin.
      destruct (Z.eqb_spec (Response.status_code response) 0); [contradiction|].
      cbn [negb] in Hfin. unfold ret in Hfin.
      destruct f; now injection Hfin as <- _. }
    subst result.
    split; [reflexivity|]. split; [reflexivity|].
    split; [intros _; now apply Hbad|].
    intros Habs. now cbn [APIResult_of_response APIResult.status] in Habs.
Qed.

Lemma finish_of_fits (call : Call) :
  finish_fits (finish_of call) (response_schema call).
Proof.
  destruct call as [op cache binary query_id|c].
  - destruct op; cbn; auto.
  - destruct c; cbn; auto.
Qed.

(** ** The results of the calls *)


Lemma decode_success_frame (qid : Z) :
  exists length qid',
    decode_response [] (success_frame qid)
    = Ok (Response.make length qid' 0 None []).
Proof.
  unfold decode_response, decode_header, success_frame.
  rewrite get_put_int_raw. cbn [of_option rbind].
  rewrite get_put_int_raw. cbn [of_option rbind].
  rewrite <- (app_nil_r (Wire.put_int 4 0)), get_put_int_raw.
  cbn [of_option rbind].
  change (Wire.signed 4 (0 mod 2 ^ (Z.of_nat 4 * 8))) with 0.
  cbn [Z.eqb decode_fields rbind]. eexists _, _. reflexivity.
Qed.

(** C1. A [cache_put] whose request could be encoded and whose response
    is the canonical success response (status 0, empty body) returns an
    APIResult with status 0, no value and no error text, whatever the
    cache, the key, the value, the hints and the binary flag; the request
    was sent and the response consumed. *)
Theorem cache_put_success_has_no_value cache key value key_hint value_hint
    binary query_id w header buffer w1 qid rest :
  from_python
    (fst (cache_put_request cache key value key_hint value_hint binary query_id))
    (snd (cache_put_request cache key value key_hint value_hint binary query_id))
    w
  = (Ok (header, buffer), w1) ->
  inbox w = success_frame qid :: rest ->
  exists result w2,
    cache_put cache key value key_hint value_hint binary query_id w
    = (Ok result, w2)
    /\ APIResult.status result = 0
    /\ APIResult.value result = PNone
    /\ APIResult.message result = ""
    /\ sent w2 = sent w ++ [buffer]
    /\ inbox w2 = rest.
Proof.
  intros Hfrom Hin.
  destruct (from_python_world _ _ _ _ _ Hfrom) as [Hsent Hinbox].
  destruct (decode_success_frame qid) as (len & qid' & Hdec).
  unfold cache_put. cbn [cache_put_request fst snd] in Hfrom |- *.
  unfold bind at 1. rewrite Hfrom.
  unfold bind at 1, send. unfold bind at 1, parse, bind at 1, receive, lift.
  cbn [inbox sent entropy]. rewrite Hsent, Hinbox, Hin, Hdec.
  cbn. eexists _, _. repeat split.
Qed.

(** ** The request fields *)

(** C9. In the request of every function of key_value.py the second
    field is [flag], of type Byte, and it is bound to 1 when [binary] is
    true and to 0 when it is false, whatever the other arguments; this is
    the request the function encodes and sends. *)
Theorem flag_follows_binary (call : KVCall) (cache : utils.Cache)
    (binary : bool) (query_id : option Z) :
  nth_error (Query.following (fst (kv_request call cache binary query_id))) 1
  = Some ("flag", datatypes.Byte)
  /\ dict_get (snd (kv_request call cache binary query_id)) "flag"
     = Ok (PInt (if binary then 1 else 0))
  /\ (exists rest,
         bound_fields
           (Query.following (fst (kv_request call cache binary query_id)))
           (snd (kv_request call cache binary query_id))
         = Ok (("hash_code", datatypes.Int, PInt (utils.cache_id cache))
               :: ("flag", datatypes.Byte, PInt (if binary then 1 else 0))
               :: rest))
  /\ kv_call call cache binary query_id
     = exchange (kv_request call cache binary query_id)
         (kv_response_schema call) (kv_finish call).
Proof.
  destruct call; cbn [kv_request]; (split; [reflexivity|]);
    (split; [reflexivity|]); (split; [eexists; reflexivity|reflexivity]).
Qed.

(** C10. [cache_get_size] binds the [peek_modes] field, of type
    PeekModes, to its argument normalized: a list or a tuple as it is, any
    other value equal to 0 as the empty list, and any other value [x] as
    the one-element list [[x]]. *)
Theorem peek_modes_normalized (cache : utils.Cache) (peek_modes : PyValue)
    (binary : bool) (query_id : option Z) :
  let normalized :=
    match peek_modes with
    | PList _ | PTuple _ => peek_modes
    | _ => if py_eq_zero peek_modes then PList [] else PList [peek_modes]
    end in
  dict_get (snd (cache_get_size_request cache peek_modes binary query_id))
    "peek_modes"
  = Ok normalized
  /\ bound_fields
       (Query.following
          (fst (cache_get_size_request cache peek_modes binary query_id)))
       (snd (cache_get_size_request cache peek_modes binary query_id))
     = Ok [("hash_code", datatypes.Int, PInt (utils.cache_id cache));
           ("flag", datatypes.Byte, PInt (if binary then 1 else 0));
           ("peek_modes", datatypes.PeekModes, normalized)]
  /\ cache_get_size cache peek_modes binary query_id
     = exchange (cache_get_size_request cache peek_modes binary query_id)
         [("count", datatypes.Long)] (FieldOf "count").
Proof.
  cbv zeta. unfold cache_get_size_request.
  destruct peek_modes; cbn [is_list_or_tuple negb fst snd];
    (split; [reflexivity|]); (split; reflexivity).
Qed.

(** ** One exchange, step by step *)

Lemma finish_world f response_struct response w out w' :
  finish f response_struct response w = (out, w') -> w' = w.
Proof.
  unfold finish, bind, lift, ret.
  destruct f;
    repeat match goal with
      | |- context [if ?b then _ else _] => destruct b
      | |- context [match ?r with Ok _ => _ | Raise _ => _ end] => destruct r
      end;
    now intros [= _ <-].
Qed.

(** With a response decoded against the schema the finishing step reads,
    the finishing step returns, and returns [result_of_response]. *)
Lemma finish_returns f response_struct frame response w :
  finish_fits f response_struct ->
  decode_response response_struct frame = Ok response ->
  finish f response_struct response w
  = (Ok (result_of_response response_struct response), w).
Proof.
  intros Hfits Hdec.
  destruct (decode_response_shape _ _ _ Hdec) as [Hzero _].
  unfold finish, result_of_response.
  cbn [APIResult_of_response APIResult.status].
  destruct (Z.eqb_spec (Response.status_code response) 0) as [Hz|Hne];
    cbn [negb].
  - destruct (Hzero Hz) as (_ & Hnames).
    destruct response_struct as [|[name t] [|? ?]]; cbn [finish_fits] in Hfits;
      try contradiction.
    + destruct Hfits as [-> | ->]; [reflexivity|].
      unfold bind, lift, ret, to_python. cbn [rbind].
      unfold APIResult.set_value, APIResult_of_response.
      cbn [APIResult.status APIResult.message APIResult.query_id].
      reflexivity.
    + destruct (single_field_present name t _ Hnames) as (v & _ & Hv).
      pose proof (to_python_single name t response v Hv) as Hpy.
      rewrite Hv.
      destruct Hfits as [-> | ->]; unfold bind, lift, ret; rewrite Hpy;
        cbn [rbind py_dict py_getitem]; rewrite String.eqb_refl; reflexivity.
  - destruct f; reflexivity.
Qed.

Lemma decode_response_raises following buf e :
  decode_response following buf = Raise e -> e = DecodeError.
Proof.
  assert (Hfields : forall fl b e', decode_fields fl b = Raise e' -> e' = DecodeError).
  { induction fl as [|[name t] fl IH]; intros b e'; cbn [decode_fields];
      [discriminate|].
    destruct (parse_value t b) as [[v b']|]; cbn [of_option rbind];
      [|now intros [= <-]].
    destruct (decode_fields fl b') as [[fs b'']|e''] eqn:Hrest; cbn [rbind];
      [discriminate|].
    intros [= <-]. eapply IH. exact Hrest. }
  unfold decode_response, decode_header.
  destruct (Wire.get_int 4 buf) as [[len b1]|]; cbn [of_option rbind];
    [|now intros [= <-]].
  destruct (Wire.get_int 8 b1) as [[qid b2]|]; cbn [of_option rbind];
    [|now intros [= <-]].
  destruct (Wire.get_int 4 b2) as [[status b3]|]; cbn [of_option rbind];
    [|now intros [= <-]].
  destruct (status =? 0).
  - destruct (decode_fields following b3) as [[fs rest]|e'] eqn:Hfs;
      cbn [rbind].
    + destruct rest; [discriminate|now intros [= <-]].
    + intros [= <-]. eapply Hfields. exact Hfs.
  - destruct (Wire.get_int 4 b3) as [[n b4]|]; cbn [of_option rbind];
      [|now intros [= <-]].
    destruct (_ && _); [discriminate|now intros [= <-]].
Qed.

(** Once every schema field has a value, encoding can fail only in a
    value codec or on an overflow. *)
Lemma encode_body_of_bound (following : schema) (values : dict PyValue) :
  forall fields,
    bound_fields following values = Ok fields ->
    forall e, encode_body following values = Raise e -> e = EncodeError.
Proof.
  induction following as [|[name t] following IH]; intros fields;
    cbn [bound_fields encode_body]; [discriminate|].
  destruct (dict_get values name) as [v|e0]; cbn [rbind]; [|discriminate].
  destruct (bound_fields following values) as [fs|e0] eqn:Hrest; cbn [rbind];
    [|discriminate].
  intros _ e.
  destruct (encode_value t v) as [b|]; cbn [of_option rbind];
    [|now intros [= <-]].
  destruct (encode_body following values) as [bs|e1] eqn:Hbody; cbn [rbind];
    [discriminate|].
  intros [= <-]. exact (IH fs eq_refl e1 eq_refl).
Qed.

Lemma from_python_raises q values fields w e w1 :
  bound_fields (Query.following q) values = Ok fields ->
  from_python q values w = (Raise e, w1) ->
  e = EncodeError.
Proof.
  intros Hbound. unfold from_python, bind, lift, ret, randint_long.
  assert (Henc : forall qid,
            encode_request (Query.op_code q) qid (Query.following q) values
            = Raise e -> e = EncodeError).
  { intros qid. unfold encode_request.
    destruct (encode_body (Query.following q) values) as [body|e'] eqn:Hbody;
      cbn [rbind].
    - destruct (_ && _); [discriminate|now intros [= <-]].
    - intros [= <-]. eapply encode_body_of_bound; eassumption. }
  destruct (Query.query_id q) as [qid|].
  - intros [= H _]. now apply Henc in H.
  - destruct (entropy w); intros [= H _]; now apply Henc in H.
Qed.

(** What one exchange does, outcome by outcome. *)
Lemma exchange_steps request response_struct f w :
  exchange request response_struct f w
  = match from_python (fst request) (snd request) w with
    | (Raise e, w1) => (Raise e, w1)
    | (Ok (_, buffer), w1) =>
        match inbox w with
        | [] =>
            (Raise ConnectionError,
             mkWorld (sent w ++ [buffer]) [] (entropy w1))
        | frame :: rest =>
            let w2 := mkWorld (sent w ++ [buffer]) rest (entropy w1) in
            match decode_response response_struct frame with
            | Ok response => finish f response_struct response w2
            | Raise e => (Raise e, w2)
            end
        end
    end.
Proof.
  unfold exchange, bind at 1.
  destruct (from_python (fst request) (snd request) w) as [[[header buffer]|e] w1]
    eqn:Hfrom; [|reflexivity].
  destruct (from_python_world _ _ _ _ _ Hfrom) as [Hsent Hinbox].
  unfold bind at 1, send. unfold bind at 1, parse, bind at 1, receive, lift.
  cbn [inbox sent entropy]. rewrite Hsent, Hinbox.
  destruct (inbox w) as [|frame rest]; [reflexivity|].
  destruct (decode_response response_struct frame); reflexivity.
Qed.

(** ** The requests of all the functions *)

Lemma numbered_fields_schema (props : PropertyMap) :
  forall types i,
    List.length props = List.length types ->
    map (fun f : Field => fst f) (numbered_fields i props types)
    = numbered_types i types.
Proof.
  induction props as [|[code v] ps IH]; intros [|t ts] i Hlen; try discriminate;
    cbn [numbered_fields numbered_types map fst]; [reflexivity|].
  cbn [List.length] in Hlen. rewrite IH by lia. reflexivity.
Qed.

Lemma numbered_values_length (props : PropertyMap) :
  forall i, List.length (numbered_values i props) = List.length props.
Proof.
  induction props as [|[code v] ps IH]; intros i;
    cbn [numbered_values List.length]; [reflexivity|now rewrite IH].
Qed.

Lemma config_request_bound (props : PropertyMap) following values :
  build_config_schema props = Ok (following, values) ->
  exists fields,
    bound_fields following values = Ok fields
    /\ map (fun f : Field => fst f) fields = following
    /\ List.length values = List.length following.
Proof.
  intros Hbuild.
  destruct (build_config_schema_inv _ _ _ Hbuild) as (types & Hres).
  destruct (build_config_schema_resolved props types Hres) as [Hb Hbound].
  rewrite Hb in Hbuild. injection Hbuild as <- <-.
  pose proof (resolves_length _ _ Hres) as Hlen.
  eexists. split; [exact Hbound|]. split.
  - cbn [map fst]. now rewrite numbered_fields_schema.
  - rewrite length_app, numbered_values_length. cbn [List.length].
    rewrite numbered_types_length. lia.
Qed.

(** Every schema field of a request has its value, and no value is left
    over. *)
Lemma request_bound (call : Call) q values :
  request_of call = Ok (q, values) ->
  exists fields,
    bound_fields (Query.following q) values = Ok fields
    /\ map (fun f : Field => fst f) fields = Query.following q
    /\ List.length values = List.length (Query.following q).
Proof.
  destruct call as [op cache binary query_id|c].
  - destruct op; cbn; intros [= <- <-]; eexists; repeat split; reflexivity.
  - destruct c; cbn [request_of];
      try (cbn; intros [= <- <-]; eexists; repeat split; reflexivity).
    + unfold cache_create_with_config_request.
      destruct (build_config_schema cache_props) as [[following vs]|e] eqn:Hb;
        cbn [rbind]; [|discriminate].
      intros [= <- <-]. cbn [Query.following].
      eapply config_request_bound. exact Hb.
    + rewrite get_or_create_request_builds.
      destruct (build_config_schema cache_props) as [[following vs]|e] eqn:Hb;
        cbn [rbind]; [|discriminate].
      intros [= <- <-]. cbn [Query.following].
      eapply config_request_bound. exact Hb.
Qed.

Lemma request_header (call : Call) q values :
  request_of call = Ok (q, values) ->
  Query.op_code q = op_code_of call /\ Query.query_id q = query_id_of call.
Proof.
  destruct call as [op cache binary query_id|c].
  - destruct op; cbn; intros [= <- _]; split; reflexivity.
  - destruct c; cbn [request_of];
      try (cbn; intros [= <- _]; split; reflexivity).
    + unfold cache_create_with_config_request.
      destruct (build_config_schema cache_props) as [[following vs]|e];
        cbn [rbind]; [|discriminate].
      intros [= <- _]. split; reflexivity.
    + rewrite get_or_create_request_builds.
      destruct (build_config_schema cache_props) as [[following vs]|e];
        cbn [rbind]; [|discriminate].
      intros [= <- _]. split; reflexivity.
Qed.

Lemma request_of_raises (call : Call) e :
  request_of call = Raise e -> exists code, e = UnknownPropertyError code.
Proof.
  assert (Hloop : forall props i pt pv e',
            collect_properties i props pt pv = Raise e' ->
            exists code, e' = UnknownPropertyError code).
  { induction props as [|[code v] ps IH]; intros i pt pv e';
      cbn [collect_properties]; [discriminate|].
    unfold prop_map. destruct (prop_table code); cbn [of_option rbind].
    - apply IH.
    - intros [= <-]. eexists. reflexivity. }
  assert (Hbuild : forall props e',
            build_config_schema props = Raise e' ->
            exists code, e' = UnknownPropertyError code).
  { intros props e'. unfold build_config_schema.
    destruct (collect_properties 0 props [] []) as [[pt pv]|e''] eqn:Hrun;
      cbn [rbind]; [discriminate|].
    intros [= <-]. eapply Hloop. exact Hrun. }
  destruct call as [op cache binary query_id|c]; [discriminate|].
  destruct c; cbn [request_of]; try discriminate.
  - unfold cache_create_with_config_request.
    destruct (build_config_schema cache_props) as [[following vs]|e'] eqn:Hb;
      cbn [rbind]; [discriminate|].
    intros [= <-]. eapply Hbuild. exact Hb.
  - rewrite get_or_create_request_builds.
    destruct (build_config_schema cache_props) as [[following vs]|e'] eqn:Hb;
      cbn [rbind]; [discriminate|].
    intros [= <-]. eapply Hbuild. exact Hb.
Qed.

Lemma numbered_fields_values (props : PropertyMap) :
  forall types i,
    List.length props = List.length types ->
    map (fun f : Field => (fst (fst f), snd f)) (numbered_fields i props types)
    = numbered_values i props.
Proof.
  induction props as [|[code v] ps IH]; intros [|t ts] i Hlen; try discriminate;
    cbn [numbered_fields numbered_values map fst snd]; [reflexivity|].
  cbn [List.length] in Hlen. rewrite IH by lia. reflexivity.
Qed.

Lemma numbered_types_names (types : list datatypes.t) :
  forall i,
    map fst (numbered_types i types)
    = map property_name (seq i (List.length types)).
Proof.
  induction types as [|t ts IH]; intros i;
    cbn [numbered_types map seq List.length fst]; [reflexivity|].
  now rewrite IH.
Qed.

Lemma property_names_distinct (i n : nat) :
  NoDup ("param_count" :: map property_name (seq i n)).
Proof.
  constructor.
  - intros Hin. apply in_map_iff in Hin as (j & Hj & _).
    now apply property_name_not_param_count in Hj.
  - apply Finite.Injective_map_NoDup; [|apply seq_NoDup].
    intros a b. apply property_name_inj.
Qed.

(** The values of a request are the values of its fields, each once. *)
Lemma request_values_sent (call : Call) q values :
  request_of call = Ok (q, values) ->
  NoDup (map fst (Query.following q))
  /\ exists fields,
       bound_fields (Query.following q) values = Ok fields
       /\ Permutation values
            (map (fun f : Field => (fst (fst f), snd f)) fields).
Proof.
  assert (Hconfig : forall props following vs,
            build_config_schema props = Ok (following, vs) ->
            NoDup (map fst following)
            /\ exists fields,
                 bound_fields following vs = Ok fields
                 /\ Permutation vs
                      (map (fun f : Field => (fst (fst f), snd f)) fields)).
  { intros props following vs Hbuild.
    destruct (build_config_schema_inv _ _ _ Hbuild) as (types & Hres).
    destruct (build_config_schema_resolved props types Hres) as [Hb Hbound].
    rewrite Hb in Hbuild. injection Hbuild as <- <-.
    pose proof (resolves_length _ _ Hres) as Hlen.
    split.
    - cbn [map fst]. rewrite numbered_types_names.
      apply property_names_distinct.
    - eexists. split; [exact Hbound|].
      cbn [map fst snd]. rewrite numbered_fields_values by assumption.
      apply Permutation_sym, Permutation_cons_append. }
  destruct call as [op cache binary query_id|c].
  - destruct op; cbn; intros [= <- <-];
      (split;
       [ repeat (constructor; [cbn; intuition discriminate|]); constructor
       | eexists; split; [reflexivity|apply Permutation_refl] ]).
  - destruct c; cbn [request_of];
      try (cbn; intros [= <- <-];
           (split;
            [ repeat (constructor; [cbn; intuition discriminate|]); constructor
            | eexists; split; [reflexivity|apply Permutation_refl] ])).
    + unfold cache_create_with_config_request.
      destruct (build_config_schema cache_props) as [[following vs]|e] eqn:Hb;
        cbn [rbind]; [|discriminate].
      intros [= <- <-]. cbn [Query.following]. eapply Hconfig. exact Hb.
    + rewrite get_or_create_request_builds.
      destruct (build_config_schema cache_props) as [[following vs]|e] eqn:Hb;
        cbn [rbind]; [|discriminate].
      intros [= <- <-]. cbn [Query.following]. eapply Hconfig. exact Hb.
Qed.

(** X1. Whatever the arguments, the request a function builds is
    complete: the names of its schema are pairwise distinct, every field
    finds its value under the same name in the values handed to
    [from_python], in schema order, and the values handed over are
    exactly the values of the fields, each once (as many values as
    fields, none that the schema does not send).  So encoding a request
    never fails on a missing or a stray name. *)
Theorem request_names_match_values (call : Call) q values :
  request_of call = Ok (q, values) ->
  NoDup (map fst (Query.following q))
  /\ (exists fields,
         bound_fields (Query.following q) values = Ok fields
         /\ map (fun f : Field => fst f) fields = Query.following q
         /\ Permutation values
              (map (fun f : Field => (fst (fst f), snd f)) fields))
  /\ List.length values = List.length (Query.following q)
  /\ (forall name, encode_body (Query.following q) values <> Raise (KeyError name))
  /\ forall w name w1,
       from_python q values w <> (Raise (KeyError name), w1).
Proof.
  intros Hreq.
  destruct (request_bound _ _ _ Hreq) as (fields & Hbound & Hschema & Hlen).
  destruct (request_values_sent _ _ _ Hreq) as (Hnodup & fields' & Hbound' & Hperm).
  rewrite Hbound in Hbound'. injection Hbound' as <-.
  split; [exact Hnodup|].
  split; [exists fields; repeat split; assumption|].
  split; [exact Hlen|]. split.
  - intros name Habs.
    pose proof (encode_body_of_bound _ _ _ Hbound _ Habs). discriminate.
  - intros w name w1 Habs.
    pose proof (from_python_raises _ _ _ _ _ _ Hbound Habs). discriminate.
Qed.

(** X2. No two functions of the two modules share an operation code:
    when the requests of two calls carry the same operation code, the two
    calls are calls of the same function. *)
Theorem op_code_identifies_function (call1 call2 : Call) q1 values1 q2 values2 :
  request_of call1 = Ok (q1, values1) ->
  request_of call2 = Ok (q2, values2) ->
  Query.op_code q1 = Query.op_code q2 ->
  function_name call1 = function_name call2.
Proof.
  intros H1 H2.
  destruct (request_header _ _ _ H1) as [-> _].
  destruct (request_header _ _ _ H2) as [-> _].
  clear H1 H2.
  destruct call1 as [op1 ? ? ?|c1]; [destruct op1|destruct c1];
    (destruct call2 as [op2 ? ? ?|c2]; [destruct op2|destruct c2]);
    cbn [op_code_of function_name]; intros H;
    first [reflexivity | discriminate H].
Qed.

(** A call that returns: its request, the frame it sent, the frame it
    read and the result it made of it. *)
Lemma run_returns_inv (call : Call) w result w' :
  run call w = (Ok result, w') ->
  exists q values header buffer w1 frame response,
    request_of call = Ok (q, values)
    /\ from_python q values w = (Ok (header, buffer), w1)
    /\ sent w' = sent w ++ [buffer]
    /\ inbox w = frame :: inbox w'
    /\ entropy w' = entropy w1
    /\ decode_response (response_schema call) frame = Ok response
    /\ result = result_of_response (response_schema call) response.
Proof.
  rewrite run_is_exchange.
  destruct (request_of call) as [[q values]|e0] eqn:Hreq; [|discriminate].
  rewrite exchange_steps. cbn [fst snd].
  destruct (from_python q values w) as [[[header buffer]|e1] w1] eqn:Hfrom;
    [|discriminate].
  destruct (inbox w) as [|frame rest] eqn:Hin; [discriminate|].
  cbv zeta.
  destruct (decode_response (response_schema call) frame) as [response|e2]
    eqn:Hdec; [|discriminate].
  rewrite (finish_returns _ _ _ _ _ (finish_of_fits call) Hdec).
  intros [= <- <-].
  exists q, values, header, buffer, w1, frame, response.
  repeat split; assumption.
Qed.

Lemma result_of_response_header response_struct response :
  APIResult.status (result_of_response response_struct response)
  = Response.status_code response
  /\ APIResult.query_id (result_of_response response_struct response)
     = Response.query_id response.
Proof.
  unfold result_of_response.
  destruct (negb _); [split; reflexivity|].
  destruct response_struct as [|[name t] ?]; [split; reflexivity|].
  destruct (dict_lookup _ _); split; reflexivity.
Qed.

(** ** What a call does to the connection *)

(** X3. A call can fail in four ways only.  An unknown property code
    is raised before anything else happens; an encoding error is raised
    with nothing sent and nothing read; a connection error comes from the
    transport and only once the request has been built and encoded
    (nothing is said of what the transport did with it); a decoding error
    means the request was encoded and sent and one response frame was
    read and refused.  A call never fails on a missing name or on the
    type of a decoded response. *)
Theorem call_failures (call : Call) w e w' :
  run call w = (Raise e, w') ->
  ((exists code, e = UnknownPropertyError code) /\ w' = w)
  \/ (e = EncodeError /\ sent w' = sent w /\ inbox w' = inbox w)
  \/ (e = ConnectionError
      /\ exists q values header buffer w1,
           request_of call = Ok (q, values)
           /\ from_python q values w = (Ok (header, buffer), w1))
  \/ (e = DecodeError
      /\ exists q values header buffer w1 frame,
           request_of call = Ok (q, values)
           /\ from_python q values w = (Ok (header, buffer), w1)
           /\ sent w' = sent w ++ [buffer]
           /\ inbox w = frame :: inbox w'
           /\ decode_response (response_schema call) frame = Raise DecodeError).
Proof.
  rewrite run_is_exchange.
  destruct (request_of call) as [[q values]|e0] eqn:Hreq.
  - destruct (request_bound _ _ _ Hreq) as (fields & Hbound & _).
    rewrite exchange_steps. cbn [fst snd].
    destruct (from_python q values w) as [[[header buffer]|e1] w1] eqn:Hfrom.
    + destruct (inbox w) as [|frame rest] eqn:Hin.
      * intros [= <- <-]. right. right. left.
        split; [reflexivity|].
        exists q, values, header, buffer, w1. split; [reflexivity|exact Hfrom].
      * cbv zeta.
        destruct (decode_response (response_schema call) frame)
          as [response|e2] eqn:Hdec.
        -- rewrite (finish_returns _ _ _ _ _ (finish_of_fits call) Hdec).
           discriminate.
        -- intros [= <- <-]. right. right. right.
           pose proof (decode_response_raises _ _ _ Hdec) as ->.
           split; [reflexivity|].
           exists q, values, header, buffer, w1, frame.
           split; [reflexivity|]. split; [exact Hfrom|].
           repeat split. exact Hdec.
    + intros [= <- <-]. right. left.
      pose proof (from_python_raises _ _ _ _ _ _ Hbound Hfrom) as ->.
      destruct (from_python_world _ _ _ _ _ Hfrom) as [Hsent Hinbox].
      repeat split; assumption.
  - intros [= <- <-]. left. split; [|reflexivity].
    eapply request_of_raises. exact Hreq.
Qed.

(** X4. A call that returns a result has sent exactly one frame, the
    encoding of its request, and has read exactly one frame, the next one
    of the connection; it sent before it read, and it leaves the frames
    behind the one it read where they were. *)
Theorem call_sends_one_frame_reads_one (call : Call) w result w' :
  run call w = (Ok result, w') ->
  exists q values header buffer w1 frame,
    request_of call = Ok (q, values)
    /\ from_python q values w = (Ok (header, buffer), w1)
    /\ sent w' = sent w ++ [buffer]
    /\ inbox w = frame :: inbox w'
    /\ entropy w' = entropy w1.
Proof.
  intros Hrun.
  destruct (run_returns_inv _ _ _ _ Hrun)
    as (q & values & header & buffer & w1 & frame & response
        & Hreq & Hfrom & Hsent & Hin & Hent & _).
  exists q, values, header, buffer, w1, frame. repeat split; assumption.
Qed.

(** X5. A failure response is reported, never raised: when the request
    could be encoded and the next frame decodes to a response with a
    nonzero status, every function returns the result built from that
    response, with its status and error text and no value, without reading
    any field. *)
Theorem failure_response_is_returned (call : Call) q values w header buffer w1
    frame rest response :
  request_of call = Ok (q, values) ->
  from_python q values w = (Ok (header, buffer), w1) ->
  inbox w = frame :: rest ->
  decode_response (response_schema call) frame = Ok response ->
  Response.status_code response <> 0 ->
  run call w
  = (Ok (APIResult_of_response response),
     mkWorld (sent w ++ [buffer]) rest (entropy w1))
  /\ APIResult.value (APIResult_of_response response) = PNone
  /\ Response.error_message response
     = Some (APIResult.message (APIResult_of_response response)).
Proof.
  intros Hreq Hfrom Hin Hdec Hne.
  rewrite run_is_exchange, Hreq, exchange_steps. cbn [fst snd].
  rewrite Hfrom, Hin. cbv zeta. rewrite Hdec.
  rewrite (finish_returns _ _ _ _ _ (finish_of_fits call) Hdec).
  unfold result_of_response. cbn [APIResult_of_response APIResult.status].
  destruct (Z.eqb_spec (Response.status_code response) 0); [contradiction|].
  cbn [negb]. split; [reflexivity|]. split; [reflexivity|].
  destruct (decode_response_shape _ _ _ Hdec) as [_ Hnonzero].
  destruct (Hnonzero Hne) as (_ & text & Htext).
  unfold APIResult_of_response. cbn [APIResult.message].
  rewrite Htext. reflexivity.
Qed.

(** X6. A success response is returned with its value: when the request
    could be encoded and the next frame decodes to a response with status
    0, a function that declares a response field returns the decoded value
    of that field, and a function that declares none returns no value;
    either way the status is 0 and there is no error text. *)
Theorem success_response_value_is_returned (call : Call) q values w header
    buffer w1 frame rest response :
  request_of call = Ok (q, values) ->
  from_python q values w = (Ok (header, buffer), w1) ->
  inbox w = frame :: rest ->
  decode_response (response_schema call) frame = Ok response ->
  Response.status_code response = 0 ->
  exists v,
    run call w
    = (Ok (APIResult.make 0 "" v (Response.query_id response)),
       mkWorld (sent w ++ [buffer]) rest (entropy w1))
    /\ match response_schema call with
       | [] => v = PNone
       | (name, _) :: _ => dict_lookup (Response.fields response) name = Some v
       end.
Proof.
  intros Hreq Hfrom Hin Hdec Hz.
  rewrite run_is_exchange, Hreq, exchange_steps. cbn [fst snd].
  rewrite Hfrom, Hin. cbv zeta. rewrite Hdec.
  rewrite (finish_returns _ _ _ _ _ (finish_of_fits call) Hdec).
  destruct (decode_response_shape _ _ _ Hdec) as [Hzero _].
  destruct (Hzero Hz) as (Hnone & Hnames).
  unfold result_of_response, APIResult.set_value, APIResult_of_response.
  cbn [APIResult.status APIResult.message APIResult.query_id].
  rewrite Hz, Hnone. cbn [Z.eqb negb].
  pose proof (finish_of_fits call) as Hfits.
  destruct (response_schema call) as [|[name t] [|? ?]]; cbn [finish_fits] in Hfits;
    try contradiction.
  - exists PNone. split; reflexivity.
  - destruct (single_field_present name t _ Hnames) as (v & _ & Hv).
    exists v. rewrite Hv. split; reflexivity.
Qed.

(** X7. Successive calls stay in step with the connection: two calls
    made one after the other send the encodings of their two requests, in
    order, the second encoded in the state the first call left, and read
    the next two frames in order; the first call's result is what the
    first frame decodes to under the first call's response schema and the
    second call's what the second frame decodes to under the second's,
    whatever the status of the first. *)
Theorem consecutive_calls_read_consecutive_frames (call1 call2 : Call) w
    result1 result2 w' :
  run_two call1 call2 w = (Ok (result1, result2), w') ->
  exists q1 values1 header1 buffer1 w1 q2 values2 header2 buffer2 w2,
    request_of call1 = Ok (q1, values1)
    /\ from_python q1 values1 w = (Ok (header1, buffer1), w1)
    /\ request_of call2 = Ok (q2, values2)
    /\ exists frame1 frame2 response1 response2,
         from_python q2 values2
           (mkWorld (sent w ++ [buffer1]) (frame2 :: inbox w') (entropy w1))
         = (Ok (header2, buffer2), w2)
         /\ run call1 w
            = (Ok result1,
               mkWorld (sent w ++ [buffer1]) (frame2 :: inbox w') (entropy w1))
         /\ run call2
              (mkWorld (sent w ++ [buffer1]) (frame2 :: inbox w') (entropy w1))
            = (Ok result2, w')
         /\ sent w' = sent w ++ [buffer1; buffer2]
         /\ inbox w = frame1 :: frame2 :: inbox w'
         /\ entropy w' = entropy w2
         /\ decode_response (response_schema call1) frame1 = Ok response1
         /\ decode_response (response_schema call2) frame2 = Ok response2
         /\ result1 = result_of_response (response_schema call1) response1
         /\ result2 = result_of_response (response_schema call2) response2
         /\ APIResult.status result1 = Response.status_code response1
         /\ APIResult.query_id result1 = Response.query_id response1
         /\ APIResult.status result2 = Response.status_code response2
         /\ APIResult.query_id result2 = Response.query_id response2.
Proof.
  unfold run_two, bind, ret.
  destruct (run call1 w) as [[r1|e1] wa] eqn:Hrun1; [|discriminate].
  destruct (run call2 wa) as [[r2|e2] wb] eqn:Hrun2; [|discriminate].
  intros [= <- <- <-].
  destruct (run_returns_inv _ _ _ _ Hrun1)
    as (q1 & v1 & h1 & b1 & w1 & f1 & resp1
        & Hreq1 & Hfrom1 & Hsent1 & Hin1 & Hent1 & Hdec1 & Hres1).
  destruct (run_returns_inv _ _ _ _ Hrun2)
    as (q2 & v2 & h2 & b2 & w2 & f2 & resp2
        & Hreq2 & Hfrom2 & Hsent2 & Hin2 & Hent2 & Hdec2 & Hres2).
  assert (Hwa : wa = mkWorld (sent w ++ [b1]) (f2 :: inbox wb) (entropy w1)).
  { destruct wa as [s i en]. cbn [sent inbox entropy] in *. congruence. }
  exists q1, v1, h1, b1, w1, q2, v2, h2, b2, w2.
  split; [exact Hreq1|]. split; [exact Hfrom1|]. split; [exact Hreq2|].
  exists f1, f2, resp1, resp2.
  destruct (result_of_response_header (response_schema call1) resp1) as [Hs1 Hq1].
  destruct (result_of_response_header (response_schema call2) resp2) as [Hs2 Hq2].
  rewrite <- Hres1 in Hs1, Hq1. rewrite <- Hres2 in Hs2, Hq2.
  rewrite <- Hwa.
  split; [exact Hfrom2|]. split; [reflexivity|]. split; [exact Hrun2|].
  split. { rewrite Hsent2, Hsent1, <- app_assoc. reflexivity. }
  split. { rewrite Hin1, Hin2. reflexivity. }
  repeat split; assumption.
Qed.

(** ** More on the requests *)

(** X9. [cache_get_size] treats a scalar as the list it stands for: a
    call with a scalar [peek_modes] is the very same call as one with the
    normalized list (0 and False stand for the empty list, any other
    scalar [x] for [[x]]); the field it sends is always a list or a tuple,
    and a list or a tuple, also one that holds a 0, goes out unchanged. *)
Theorem peek_modes_scalar_is_its_list (cache : utils.Cache) (peek_modes : PyValue)
    (binary : bool) (query_id : option Z) :
  let normalized :=
    match peek_modes with
    | PList _ | PTuple _ => peek_modes
    | _ => if py_eq_zero peek_modes then PList [] else PList [peek_modes]
    end in
  cache_get_size cache peek_modes binary query_id
  = cache_get_size cache normalized binary query_id
  /\ cache_get_size_request cache peek_modes binary query_id
     = cache_get_size_request cache normalized binary query_id
  /\ is_list_or_tuple normalized = true
  /\ dict_get (snd (cache_get_size_request cache normalized binary query_id))
       "peek_modes"
     = Ok normalized.
Proof.
  cbv zeta.
  assert (Hreq :
    cache_get_size_request cache peek_modes binary query_id
    = cache_get_size_request cache
        match peek_modes with
        | PList _ | PTuple _ => peek_modes
        | _ => if py_eq_zero peek_modes then PList [] else PList [peek_modes]
        end binary query_id).
  { unfold cache_get_size_request.
    destruct peek_modes as [| b | z | | | | |]; cbn [is_list_or_tuple negb py_eq_zero];
      try reflexivity.
    - destruct b; reflexivity.
    - destruct (z =? 0); reflexivity. }
  split; [unfold cache_get_size; now rewrite <- Hreq|].
  split; [exact Hreq|].
  rewrite <- Hreq. unfold cache_get_size_request.
  destruct peek_modes as [| b | z | | | | |]; cbn [is_list_or_tuple negb py_eq_zero];
    try (split; reflexivity).
  - destruct b; split; reflexivity.
  - destruct (z =? 0); split; reflexivity.
Qed.

(** X10. [cache_create] and [cache_get_or_create] build the same
    request but for the operation code: one field, [cache_name], of type
    String, bound to the name itself (not to its hash), the same query
    id, frames that agree on every byte outside the operation code, and
    the same handling of the response (no value is ever set). *)
Theorem name_requests_differ_in_op_code_only (name : string)
    (query_id : option Z) :
  Query.op_code (fst (cache_create_request name query_id))
  = OP_CACHE_CREATE_WITH_NAME
  /\ Query.op_code (fst (cache_get_or_create_request name query_id))
     = OP_CACHE_GET_OR_CREATE_WITH_NAME
  /\ fst (cache_get_or_create_request name query_id)
     = Query.with_op_code OP_CACHE_GET_OR_CREATE_WITH_NAME
         (fst (cache_create_request name query_id))
  /\ snd (cache_get_or_create_request name query_id)
     = snd (cache_create_request name query_id)
  /\ bound_fields (Query.following (fst (cache_create_request name query_id)))
       (snd (cache_create_request name query_id))
     = Ok [("cache_name", datatypes.String, PStr name)]
  /\ (forall qid h1 b1 h2 b2,
         encode_request OP_CACHE_CREATE_WITH_NAME qid
           (Query.following (fst (cache_create_request name query_id)))
           (snd (cache_create_request name query_id))
         = Ok (h1, b1) ->
         encode_request OP_CACHE_GET_OR_CREATE_WITH_NAME qid
           (Query.following (fst (cache_get_or_create_request name query_id)))
           (snd (cache_get_or_create_request name query_id))
         = Ok (h2, b2) ->
         firstn 4 b1 = firstn 4 b2 /\ skipn 6 b1 = skipn 6 b2)
  /\ cache_create name query_id
     = exchange (cache_create_request name query_id) [] Plain
  /\ cache_get_or_create name query_id
     = exchange (cache_get_or_create_request name query_id) [] Plain.
Proof.
  repeat (split; [reflexivity|]). split; [|split; reflexivity].
  intros qid h1 b1 h2 b2 H1 H2.
  destruct (encode_request_frame _ _ _ _ _ _ H1) as (body1 & Hb1 & _ & _ & ->).
  destruct (encode_request_frame _ _ _ _ _ _ H2) as (body2 & Hb2 & _ & _ & ->).
  cbn [cache_create_request cache_get_or_create_request fst snd Query.following]
    in Hb1, Hb2.
  rewrite Hb1 in Hb2. injection Hb2 as <-.
  split; reflexivity.
Qed.

Lemma collect_properties_stops known types :
  resolves known types ->
  forall code v rest i prop_types prop_values,
    prop_table code = None ->
    collect_properties i (known ++ (code, v) :: rest) prop_types prop_values
    = Raise (UnknownPropertyError code).
Proof.
  induction 1 as [|[c x] t known types Hc Hrest IH];
    intros code v rest i pt pv Hcode; cbn [app collect_properties]; unfold prop_map.
  - now rewrite Hcode.
  - cbn [fst] in Hc. rewrite Hc. cbn [of_option rbind]. now apply IH.
Qed.

(** X11. The builder stops at the first property code it cannot
    resolve: when the codes before it resolve, that code is the one
    reported, whatever follows it in the map, and both configuration
    functions raise the error with nothing sent and nothing read. *)
Theorem first_unknown_property_is_reported (known : PropertyMap) types code v
    (rest : PropertyMap) :
  resolves known types ->
  prop_table code = None ->
  build_config_schema (known ++ (code, v) :: rest)
  = Raise (UnknownPropertyError code)
  /\ forall query_id w,
       cache_create_with_config (known ++ (code, v) :: rest) query_id w
       = (Raise (UnknownPropertyError code), w)
       /\ cache_get_or_create_with_config (known ++ (code, v) :: rest) query_id w
          = (Raise (UnknownPropertyError code), w).
Proof.
  intros Hres Hcode.
  assert (Hbuild : build_config_schema (known ++ (code, v) :: rest)
                   = Raise (UnknownPropertyError code)).
  { unfold build_config_schema.
    now rewrite (collect_properties_stops known types Hres). }
  split; [exact Hbuild|]. intros query_id w.
  unfold cache_create_with_config, cache_get_or_create_with_config, bind, lift.
  rewrite get_or_create_request_builds.
  unfold cache_create_with_config_request.
  rewrite Hbuild. split; reflexivity.
Qed.

(** X12. A cache may be addressed by its name or by its numeric
    identifier.  Every function that takes a cache, the twenty-one of
    key_value.py and [cache_get_configuration] and [cache_destroy] of
    cache_config.py, sends [cache_id cache] as the [hash_code] field, the
    first of its request, and is the exchange of that request; so it
    builds the same request and is the same call for the name as for the
    identifier the name stands for, and an identifier is sent as it was
    given. *)
Theorem cache_name_or_identifier (name : string) :
  (forall op binary query_id,
      kv_request op (utils.CacheName name) binary query_id
      = kv_request op (utils.CacheId (utils.cache_id (utils.CacheName name)))
          binary query_id
      /\ kv_call op (utils.CacheName name) binary query_id
         = kv_call op (utils.CacheId (utils.cache_id (utils.CacheName name)))
             binary query_id)
  /\ (forall flags query_id,
         cache_get_configuration (utils.CacheName name) flags query_id
         = cache_get_configuration
             (utils.CacheId (utils.cache_id (utils.CacheName name)))
             flags query_id)
  /\ (forall query_id,
         cache_destroy (utils.CacheName name) query_id
         = cache_destroy (utils.CacheId (utils.cache_id (utils.CacheName name)))
             query_id)
  /\ (forall op id binary query_id,
         dict_get (snd (kv_request op (utils.CacheId id) binary query_id))
           "hash_code"
         = Ok (PInt id))
  /\ (forall op cache binary query_id,
         (exists rest,
             bound_fields
               (Query.following (fst (kv_request op cache binary query_id)))
               (snd (kv_request op cache binary query_id))
             = Ok (("hash_code", datatypes.Int, PInt (utils.cache_id cache))
                     :: rest))
         /\ kv_call op cache binary query_id
            = exchange (kv_request op cache binary query_id)
                (kv_response_schema op) (kv_finish op))
  /\ (forall cache flags query_id,
         bound_fields
           (Query.following
              (fst (cache_get_configuration_request cache flags query_id)))
           (snd (cache_get_configuration_request cache flags query_id))
         = Ok [("hash_code", datatypes.Int, PInt (utils.cache_id cache));
               ("flags", datatypes.Byte, PInt flags)]
         /\ cache_get_configuration cache flags query_id
            = exchange (cache_get_configuration_request cache flags query_id)
                [("cache_config", datatypes.cache_config_struct)]
                (FieldOf "cache_config"))
  /\ (forall cache query_id,
         bound_fields
           (Query.following (fst (cache_destroy_request cache query_id)))
           (snd (cache_destroy_request cache query_id))
         = Ok [("hash_code", datatypes.Int, PInt (utils.cache_id cache))]
         /\ cache_destroy cache query_id
            = exchange (cache_destroy_request cache query_id) [] Plain)
  /\ (forall id, utils.cache_id (utils.CacheId id) = id)
  /\ utils.cache_id (utils.CacheName name) = utils.hashcode name.
Proof.
  split; [|split; [|split; [|split; [|split; [|split; [|split; [|split]]]]]]].
  - intros op binary query_id. destruct op; split; reflexivity.
  - reflexivity.
  - reflexivity.
  - intros op id binary query_id. destruct op; reflexivity.
  - intros op cache binary query_id.
    destruct op; (split; [eexists; reflexivity|reflexivity]).
  - intros cache flags query_id. split; reflexivity.
  - intros cache query_id. split; reflexivity.
  - reflexivity.
  - reflexivity.
Qed.

End Codec.

(** ** The definitions run on the sample registry *)

(** The end-to-end scenario: a put of 42 under "k" into "myCache",
    answered by the canonical success response. *)
Lemma cache_put_success_has_no_value_witness :
  exists result w2,
    cache_put Sample.op_number Sample.encode_value Sample.parse_value
      (utils.CacheName "myCache") (PStr "k") (PInt 42) None None false (Some 7)
      (Sample.world [success_frame 7])
    = (Ok result, w2)
    /\ APIResult.status result = 0
    /\ APIResult.value result = PNone
    /\ APIResult.message result = ""
    /\ inbox w2 = [].
Proof.
  edestruct (cache_put_success_has_no_value
               Sample.op_number Sample.encode_value Sample.parse_value
               (utils.CacheName "myCache") (PStr "k") (PInt 42) None None false
               (Some 7) (Sample.world [success_frame 7]))
    as (result & w2 & Hrun & Hstatus & Hvalue & Hmessage & _ & Hinbox).
  - reflexivity.
  - reflexivity.
  - exists result, w2. repeat split; eassumption.
Defined.

(** The ordering example: code 2 supplied before code 1. *)
Lemma config_schema_in_supply_order_witness :
  exists following values fields,
    build_config_schema Sample.prop_table [(2, PStr "x"); (1, PInt 5)]
    = Ok (following, values)
    /\ (forall query_id,
           cache_create_with_config_request Sample.prop_table
             [(2, PStr "x"); (1, PInt 5)] query_id
           = Ok (Query.make OP_CACHE_CREATE_WITH_CONFIGURATION following query_id,
                 values)
           /\ cache_get_or_create_with_config_request Sample.prop_table
                [(2, PStr "x"); (1, PInt 5)] query_id
              = Ok (Query.make OP_CACHE_GET_OR_CREATE_WITH_CONFIGURATION
                      following query_id,
                    values))
    /\ bound_fields following values
       = Ok (("param_count", datatypes.Short, PInt 2) :: fields)
    /\ map (fun f : Field => snd f) fields = [PStr "x"; PInt 5]
    /\ map (fun f : Field => snd (fst f)) fields
       = [datatypes.String; datatypes.Int]
    /\ map (fun f : Field => fst (fst f)) fields = ["property_0"; "property_1"].
Proof.
  apply (config_schema_in_supply_order Sample.prop_table
           [(2, PStr "x"); (1, PInt 5)] [datatypes.String; datatypes.Int]).
  repeat constructor.
Defined.

Example config_schema_order_example :
  build_config_schema Sample.prop_table [(2, PStr "x"); (1, PInt 5)]
  = Ok ([("param_count", datatypes.Short);
         ("property_0", datatypes.String);
         ("property_1", datatypes.Int)],
        [("property_0", PStr "x"); ("property_1", PInt 5);
         ("param_count", PInt 2)]).
Proof. reflexivity. Qed.


(** The scenario of a failed call: status -1 and the text "not found". *)
Example cache_get_not_found :
  fst (cache_get Sample.op_number Sample.encode_value Sample.parse_value
         (utils.CacheName "myCache") (PStr "k") None false (Some 7)
         (Sample.world [error_frame 7 (-1) "not found"]))
  = Ok (APIResult.make (-1) "not found" PNone 7).
Proof. reflexivity. Qed.


(** A configuration with a name and a mode. *)
Lemma config_schema_starts_with_param_count_witness :
  exists property_schema fields,
    [("param_count", datatypes.Short);
     ("property_0", datatypes.String);
     ("property_1", datatypes.Int)]
    = ("param_count", datatypes.Short) :: property_schema
    /\ List.length property_schema = 2%nat
    /\ dict_get [("property_0", PStr "myCache"); ("property_1", PInt 1);
                 ("param_count", PInt 2)] "param_count"
       = Ok (PInt 2)
    /\ bound_fields
         [("param_count", datatypes.Short);
          ("property_0", datatypes.String);
          ("property_1", datatypes.Int)]
         [("property_0", PStr "myCache"); ("property_1", PInt 1);
          ("param_count", PInt 2)]
       = Ok (("param_count", datatypes.Short, PInt 2) :: fields)
    /\ List.length fields = 2%nat.
Proof.
  apply (config_schema_starts_with_param_count Sample.prop_table
           [(0, PStr "myCache"); (1, PInt 1)]).
  reflexivity.
Defined.

(** The put request of the scenario, answered by the peer. *)
Lemma query_id_round_trip_witness :
  exists header request,
    encode_request Sample.op_number Sample.encode_value OP_CACHE_PUT 7
      [("hash_code", datatypes.Int); ("flag", datatypes.Byte);
       ("key", datatypes.AnyDataObject); ("value", datatypes.AnyDataObject)]
      [("hash_code", PInt (utils.hashcode "myCache")); ("flag", PInt 0);
       ("key", PStr "k"); ("value", PInt 42)]
    = Ok (header, request)
    /\ Header.query_id header = 7
    /\ (exists length st,
           decode_header (server_reply request 0 []) = Ok (length, 7, st, []))
    /\ (forall response_schema response,
           decode_response Sample.parse_value response_schema
             (server_reply request 0 [])
           = Ok response ->
           Response.query_id response = 7).
Proof.
  eexists _, _. split; [reflexivity|].
  apply (query_id_round_trip Sample.op_number Sample.encode_value
           Sample.parse_value OP_CACHE_PUT 7
           [("hash_code", datatypes.Int); ("flag", datatypes.Byte);
            ("key", datatypes.AnyDataObject); ("value", datatypes.AnyDataObject)]
           [("hash_code", PInt (utils.hashcode "myCache")); ("flag", PInt 0);
            ("key", PStr "k"); ("value", PInt 42)]).
  reflexivity.
Defined.

(** Code 7 is not in the sample table. *)
Lemma unknown_property_fails_witness :
  exists code,
    Sample.prop_table code = None
    /\ In code (map fst [(2, PStr "x"); (7, PInt 5)])
    /\ build_config_schema Sample.prop_table [(2, PStr "x"); (7, PInt 5)]
       = Raise (UnknownPropertyError code)
    /\ forall query_id w,
         cache_create_with_config Sample.op_number Sample.prop_table
           Sample.encode_value Sample.parse_value
           [(2, PStr "x"); (7, PInt 5)] query_id w
         = (Raise (UnknownPropertyError code), w)
         /\ cache_get_or_create_with_config Sample.op_number Sample.prop_table
              Sample.encode_value Sample.parse_value
              [(2, PStr "x"); (7, PInt 5)] query_id w
            = (Raise (UnknownPropertyError code), w).
Proof.
  apply (unknown_property_fails Sample.op_number Sample.prop_table
           Sample.encode_value Sample.parse_value [(2, PStr "x"); (7, PInt 5)]).
  apply Exists_cons_tl, Exists_cons_hd. reflexivity.
Defined.

(** ** More runs on the sample registry *)

Local Abbreviation sample_run :=
  (run Sample.op_number Sample.prop_table Sample.encode_value Sample.parse_value).
Local Abbreviation sample_get :=
  (KV (Call_cache_get (PStr "k") None) (utils.CacheName "myCache") false (Some 7)).
Local Abbreviation sample_put :=
  (KV (Call_cache_put (PStr "k") (PInt 42) None None)
     (utils.CacheName "myCache") false (Some 6)).
Local Abbreviation answer_42 := (data_frame 7 (byte.of_Z 3 :: Wire.put_int 4 42)).

(** The put request of the scenario: four fields, four values. *)
Lemma request_names_match_values_witness :
  NoDup ["hash_code"; "flag"; "key"; "value"]
  /\ exists fields,
       bound_fields
         [("hash_code", datatypes.Int); ("flag", datatypes.Byte);
          ("key", datatypes.AnyDataObject); ("value", datatypes.AnyDataObject)]
         [("hash_code", PInt (utils.hashcode "myCache")); ("flag", PInt 0);
          ("key", PStr "k"); ("value", PInt 42)]
       = Ok fields
       /\ map (fun f : Field => fst f) fields
          = [("hash_code", datatypes.Int); ("flag", datatypes.Byte);
             ("key", datatypes.AnyDataObject); ("value", datatypes.AnyDataObject)]
       /\ Permutation
            [("hash_code", PInt (utils.hashcode "myCache")); ("flag", PInt 0);
             ("key", PStr "k"); ("value", PInt 42)]
            (map (fun f : Field => (fst (fst f), snd f)) fields).
Proof.
  destruct (request_names_match_values Sample.op_number Sample.prop_table
              Sample.encode_value sample_put _ _ eq_refl)
    as (Hnodup & Hfields & _).
  split; [exact Hnodup|exact Hfields].
Defined.

(** Two gets of different keys are calls of the same function. *)
Lemma op_code_identifies_function_witness :
  function_name sample_get
  = function_name
      (KV (Call_cache_get (PInt 5) (Some datatypes.Int)) (utils.CacheId 1) true
         None).
Proof.
  exact (op_code_identifies_function Sample.prop_table sample_get
           (KV (Call_cache_get (PInt 5) (Some datatypes.Int)) (utils.CacheId 1)
              true None)
           _ _ _ _ eq_refl eq_refl eq_refl).
Defined.

(** A get answered with a success frame that carries no value. *)
Lemma call_failures_witness :
  exists buffer,
    sent (snd (sample_run sample_get (Sample.world [success_frame 7])))
    = sent (Sample.world [success_frame 7]) ++ [buffer]
    /\ decode_response Sample.parse_value
         [("value", datatypes.AnyDataObject)] (success_frame 7)
       = Raise DecodeError.
Proof.
  destruct (call_failures Sample.op_number Sample.prop_table Sample.encode_value
              Sample.parse_value sample_get (Sample.world [success_frame 7])
              DecodeError
              (snd (sample_run sample_get (Sample.world [success_frame 7])))
              eq_refl)
    as [[[code Hcode] _]|[[Hcode _]|[[Hcode _]
        |(_ & q & values & header & buffer & w1 & frame & _ & _ & Hsent & Hin
          & Hdec)]]];
    try discriminate Hcode.
  exists buffer. split; [exact Hsent|].
  injection Hin as <-. exact Hdec.
Defined.

(** A get answered with the integer 42. *)
Lemma call_sends_one_frame_reads_one_witness :
  exists buffer frame,
    sent (snd (sample_run sample_get (Sample.world [answer_42; success_frame 8])))
    = [buffer]
    /\ [answer_42; success_frame 8] = [frame; success_frame 8].
Proof.
  destruct (call_sends_one_frame_reads_one Sample.op_number Sample.prop_table
              Sample.encode_value Sample.parse_value sample_get
              (Sample.world [answer_42; success_frame 8]) _ _ eq_refl)
    as (q & values & header & buffer & w1 & frame & _ & _ & Hsent & Hin & _).
  exists buffer, frame. split; [exact Hsent|exact Hin].
Defined.

(** A get answered with status -1 and the text "not found". *)
Lemma failure_response_is_returned_witness :
  fst (sample_run sample_get (Sample.world [error_frame 7 (-1) "not found"]))
  = Ok (APIResult.make (-1) "not found" PNone 7).
Proof.
  edestruct failure_response_is_returned
    with (op_number := Sample.op_number) (prop_table := Sample.prop_table)
         (encode_value := Sample.encode_value) (parse_value := Sample.parse_value)
         (call := sample_get)
         (w := Sample.world [error_frame 7 (-1) "not found"])
    as (Hrun & _).
  - reflexivity.
  - reflexivity.
  - reflexivity.
  - reflexivity.
  - cbn. discriminate.
  - rewrite Hrun. reflexivity.
Defined.

(** A get answered with the integer 42 returns 42. *)
Lemma success_response_value_is_returned_witness :
  exists v,
    fst (sample_run sample_get (Sample.world [answer_42]))
    = Ok (APIResult.make 0 "" v 7)
    /\ dict_lookup [("value", PInt 42)] "value" = Some v.
Proof.
  edestruct success_response_value_is_returned
    with (op_number := Sample.op_number) (prop_table := Sample.prop_table)
         (encode_value := Sample.encode_value) (parse_value := Sample.parse_value)
         (call := sample_get) (w := Sample.world [answer_42])
    as (v & Hrun & Hv).
  - reflexivity.
  - reflexivity.
  - reflexivity.
  - reflexivity.
  - reflexivity.
  - exists v. split; [rewrite Hrun; reflexivity|exact Hv].
Defined.

(** A put, then a get: the put reads the first frame, the get the second. *)
Lemma consecutive_calls_read_consecutive_frames_witness :
  exists header1 buffer1 buffer2 frame1 frame2 response1 response2,
    fst (from_python Sample.op_number Sample.encode_value
           (fst (cache_put_request (utils.CacheName "myCache") (PStr "k")
                   (PInt 42) None None false (Some 6)))
           (snd (cache_put_request (utils.CacheName "myCache") (PStr "k")
                   (PInt 42) None None false (Some 6)))
           (Sample.world [success_frame 6; answer_42]))
    = Ok (header1, buffer1)
    /\ sent (snd (run_two Sample.op_number Sample.prop_table
                    Sample.encode_value Sample.parse_value
                    sample_put sample_get
                    (Sample.world [success_frame 6; answer_42])))
       = [buffer1; buffer2]
    /\ [success_frame 6; answer_42] = [frame1; frame2]
    /\ decode_response Sample.parse_value [] frame1 = Ok response1
    /\ decode_response Sample.parse_value
         [("value", datatypes.AnyDataObject)] frame2
       = Ok response2
    /\ APIResult.make 0 "" PNone 6 = result_of_response [] response1
    /\ APIResult.make 0 "" (PInt 42) 7
       = result_of_response [("value", datatypes.AnyDataObject)] response2.
Proof.
  edestruct (consecutive_calls_read_consecutive_frames Sample.op_number
               Sample.prop_table Sample.encode_value Sample.parse_value
               sample_put sample_get (Sample.world [success_frame 6; answer_42]))
    as (q1 & v1 & h1 & b1 & w1 & q2 & v2 & h2 & b2 & w2
        & Hreq1 & Hfrom1 & _ & f1 & f2 & r1 & r2
        & _ & _ & _ & Hsent & Hin & _ & Hd1 & Hd2 & Hr1 & Hr2 & _).
  - reflexivity.
  - injection Hreq1 as <- <-.
    exists h1, b1, b2, f1, f2, r1, r2.
    split; [exact (f_equal fst Hfrom1)|].
    split; [exact Hsent|]. split; [exact Hin|]. split; [exact Hd1|].
    split; [exact Hd2|]. split; [exact Hr1|exact Hr2].
Defined.

(** Code 7 is the first of two codes the sample table does not know. *)
Lemma first_unknown_property_is_reported_witness :
  build_config_schema Sample.prop_table
    ([(2, PStr "x")] ++ (7, PInt 5) :: [(9, PNone)])
  = Raise (UnknownPropertyError 7)
  /\ forall query_id w,
       cache_create_with_config Sample.op_number Sample.prop_table
         Sample.encode_value Sample.parse_value
         ([(2, PStr "x")] ++ (7, PInt 5) :: [(9, PNone)]) query_id w
       = (Raise (UnknownPropertyError 7), w)
       /\ cache_get_or_create_with_config Sample.op_number Sample.prop_table
            Sample.encode_value Sample.parse_value
            ([(2, PStr "x")] ++ (7, PInt 5) :: [(9, PNone)]) query_id w
          = (Raise (UnknownPropertyError 7), w).
Proof.
  apply (first_unknown_property_is_reported Sample.op_number Sample.prop_table
           Sample.encode_value Sample.parse_value
           [(2, PStr "x")] [datatypes.String] 7 (PInt 5) [(9, PNone)]).
  - repeat constructor.
  - reflexivity.
Defined.
